(** * Blackbird SDK chat service: a shallow embedding of
      [src/blackbird_sdk/services/chat.py] and the properties of its
      streaming "send and collect" path.

    Python values are a small inductive type, dictionaries are stdpp
    [gmap]s keyed by strings, exceptions are a result type, and the
    collaborators of [ChatService] (HTTP client, event source manager,
    wall clock, feature flags, user callbacks) are records of functions.
    Every call made to a collaborator or to a user callback is appended
    to a trace, so that "no request is issued" or "on_chunk received
    exactly these fragments" are statements about that trace. *)

From stdpp Require Import gmap strings list.
From Stdlib Require Import ZArith Lia QArith.

Set Warnings "-register-all".
Open Scope Z_scope.

(** ** Python values *)

Inductive value : Type :=
  | VNone
  | VBool (b : bool)
  | VInt (z : Z)
  | VStr (s : string)
  | VList (l : list value)
  | VDict (d : gmap string value).

(** Truth value of an object, as tested by [if x:] and [not x]. *)
Definition truthy (v : value) : bool :=
  match v with
  | VNone => false
  | VBool b => b
  | VInt z => negb (z =? 0)
  | VStr s => negb (String.eqb s "")
  | VList l => match l with [] => false | _ :: _ => true end
  | VDict d => negb (bool_decide (size d = 0%nat))
  end.

(** [d.get(key)]: the entry, or [None]. *)
Definition dict_get (d : gmap string value) (key : string) : value :=
  default VNone (d !! key).

(** [d.get(key, dflt)]. *)
Definition dict_get_default (d : gmap string value) (key : string) (dflt : value) : value :=
  default dflt (d !! key).

(** [key in d]. *)
Definition dict_contains (d : gmap string value) (key : string) : bool :=
  match d !! key with Some _ => true | None => false end.

(** [target.update(other)]: entries of [other] win. *)
Definition dict_update (target other : gmap string value) : gmap string value :=
  other ∪ target.

(** ** Exceptions and results *)

Inductive exn : Type :=
  | ValidationError (msg field_name : string)
  | StreamingResponseError (msg : string)
  | TypeError (msg : string)
  | KeyError (key : string)
  | AttributeError (msg : string)
  | PyException (arg : value)
  | RaisedException (name : string)
  | RaisedBaseException (name : string).

(** [isinstance(e, Exception)]: what an [except Exception] clause catches.
    [RaisedBaseException] stands for [KeyboardInterrupt], [SystemExit] and
    the like, which derive from [BaseException] only. *)
Definition isinstance_Exception (e : exn) : bool :=
  match e with
  | RaisedBaseException _ => false
  | _ => true
  end.

Inductive outcome (A : Type) : Type :=
  | Return (a : A)
  | Raise (e : exn).
Arguments Return {A} a.
Arguments Raise {A} e.

(** [''.join(parts)]: every part must be a [str]. *)
Fixpoint str_join (parts : list value) : outcome string :=
  match parts with
  | [] => Return ""%string
  | VStr s :: rest =>
      match str_join rest with
      | Return t => Return (s ++ t)%string
      | Raise e => Raise e
      end
  | _ :: _ => Raise (TypeError "sequence item: expected str instance")
  end.

(** ** Calls observed on collaborators and callbacks *)

Inductive effect : Type :=
  | HttpPost (endpoint : string) (data : gmap string value)
  | LoggerError (msg : string)
  | StartChatStream (message agent model : value)
  | GetStreamStatus (stream_id : value)
  | StopStream (stream_id : value)
  | PauseStream (stream_id : value)
  | ResumeStream (stream_id : value)
  | GetActiveStreams
  | OnChunk (arg : value)
  | OnComplete
  | OnError (e : exn).

(** The part of the program state the service touches: the list
    [collected_response] captured by [default_chunk_handler], and the
    trace of calls made so far, oldest first. *)
Record state : Type := mkState {
  collected_response : list value;
  trace : list effect
}.

Definition initial_state : state := mkState [] [].

(** A computation reads and writes the state and returns or raises. *)
Definition M (A : Type) : Type := state -> outcome A * state.

Definition raise {A} (e : exn) : M A := fun st => (Raise e, st).

#[global] Instance M_ret : MRet M := fun A a st => (Return a, st).
#[global] Instance M_bind : MBind M := fun A B k m st =>
  match m st with
  | (Return a, st') => k a st'
  | (Raise e, st') => (Raise e, st')
  end.

(** [try: body  except Exception as e: handler(e)]. *)
Definition try_except_Exception {A} (body : M A) (handler : exn -> M A) : M A :=
  fun st =>
    match body st with
    | (Raise e, st') =>
        if isinstance_Exception e then handler e st' else (Raise e, st')
    | r => r
    end.

Definition emit (e : effect) : M unit :=
  fun st => (Return tt, mkState (collected_response st) (trace st ++ [e])).

(** [collected_response.append(x)]. *)
Definition collected_response_append (x : value) : M unit :=
  fun st => (Return tt, mkState (collected_response st ++ [x]) (trace st)).

(** A caller-supplied handler. Its body is unknown: what is modelled is
    whether a call returns ([None]) or raises ([Some e]), which may depend
    on the argument and on everything that happened before the call. *)
Definition callback (A : Type) : Type := list effect -> A -> option exn.

Definition invoke {A} (f : callback A) (observed : A -> effect) (a : A) : M unit :=
  fun st =>
    let st' := mkState (collected_response st) (trace st ++ [observed a]) in
    match f (trace st) a with
    | None => (Return tt, st')
    | Some e => (Raise e, st')
    end.

(** ** Collaborators *)

(** A server-sent event object; [ev_data = None] is an object without a
    [data] attribute. *)
Record event : Type := mkEvent { ev_data : option value }.

(** [self.http_client]. *)
Record HttpClient : Type := mkHttpClient {
  post : string -> gmap string value -> outcome value;
  has_logger : bool
}.

(** [self.event_source_manager]. The manager reads the stream on a thread
    of its own and calls [event_callback] from there. The embedding puts
    those calls at the points where the calling thread yields: during
    [start_chat_stream] and during each [time.sleep]; one callback
    invocation is not interleaved with the caller's code.
    [get_stream_status n sid] is the answer to the [n]-th status query of
    the waiting loop. *)
Record EventSourceManager : Type := mkESM {
  start_chat_stream : value -> value -> value -> outcome value;
  events_on_start : list event;
  get_stream_status : nat -> value -> value;
  events_while_sleeping : nat -> list event
}.

(** What the module imports and reads from its environment:
    [time.time()] (the [n]-th reading, in milliseconds),
    [is_feature_enabled], the [require_feature] decorator (whether it lets
    the call through or raises), [platform.machine().lower()] and the
    [CHAT] endpoint constant. *)
Record World : Type := mkWorld {
  time_time : nat -> Z;
  is_feature_enabled : string -> bool;
  require_feature : string -> option exn;
  system : string;
  CHAT : string
}.

Record ChatService : Type := mkChatService {
  http_client : HttpClient;
  event_source_manager : option EventSourceManager
}.

(** ** [ChatService._extract_response_text] *)

Section Builtins.
(** [str(x)] for an object that is not a [str], and
    [json.dumps(x, indent=2)]: library functions, left abstract. *)
Variable str_of_object : value -> string.
Variable json_dumps_indent2 : value -> string.

(** [str(x)]. *)
Definition py_str (x : value) : string :=
  match x with
  | VStr s => s
  | _ => str_of_object x
  end.

(** [for key in keys: if key in response: return str(response[key])];
    [None] when the loop falls through. *)
Fixpoint extract_by_keys (keys : list string) (response : gmap string value)
  : option string :=
  match keys with
  | [] => None
  | key :: keys' =>
      match response !! key with
      | Some v => Some (py_str v)
      | None => extract_by_keys keys' response
      end
  end.

Definition response_keys : list string :=
  ["response"; "message"; "text"; "content"; "answer"]%string.

Definition _extract_response_text (response : value) : string :=
  match response with
  | VStr s => s
  | VDict d =>
      match extract_by_keys response_keys d with
      | Some text => text
      | None => json_dumps_indent2 response
      end
  | _ => py_str response
  end.
End Builtins.

(** ** [ChatService._handle_streaming_response] *)

(** [if handler: handler(arg)] for an optional callback. *)
Definition invoke_if_set {A} (f : option (callback A)) (observed : A -> effect) (a : A)
  : M unit :=
  match f with
  | Some g => invoke g observed a
  | None => mret tt
  end.

(** The text [default_chunk_handler] reads from an event: lines 78-83. *)
Definition chunk_text_of (ev : event) : value :=
  match ev_data ev with
  | Some (VDict d) =>
      match d !! "response" with
      | Some v => v
      | None =>
          match d !! "message" with
          | Some v => v
          | None => VStr ""
          end
      end
  | _ => VStr ""
  end.

Definition default_chunk_handler (on_chunk : option (callback value))
    (on_error : option (callback exn)) (ev : event) : M unit :=
  try_except_Exception
    (let chunk_text := chunk_text_of ev in
     if truthy chunk_text then
       collected_response_append chunk_text;;
       invoke_if_set on_chunk OnChunk chunk_text
     else mret tt)
    (fun e => invoke_if_set on_error OnError e).

(** Defined next to [default_chunk_handler] in the source and, like there,
    handed to nobody: [start_chat_stream] only receives [event_callback]. *)
Definition completion_handler (on_complete : option (callback unit)) : M unit :=
  invoke_if_set on_complete (fun _ => OnComplete) tt.

Definition error_handler (on_error : option (callback exn)) (error : exn) : M unit :=
  invoke_if_set on_error OnError error.

(** The manager calls [event_callback] on each event in turn; what the
    callback raises ends in the manager's thread, not in the caller's. *)
Definition deliver (event_callback : event -> M unit) (evs : list event) (st : state)
  : state :=
  fold_left (fun s ev => (event_callback ev s).2) evs st.

(** [timeout = 30] seconds and [time.sleep(0.1)], in milliseconds. *)
Definition timeout : Z := 30000.
Definition poll_interval : Z := 100.

(** [status in ['CLOSED', 'ERROR', 'COMPLETED']]. *)
Definition is_terminal_status (status : value) : bool :=
  match status with
  | VStr s => (String.eqb s "CLOSED" || String.eqb s "ERROR" || String.eqb s "COMPLETED")%bool
  | _ => false
  end.

Inductive wait_exit : Type := Terminal | TimedOut.

(** The [while] loop of lines 119-123. [n] counts the iterations done so
    far; iteration [n] tests the clock reading [time_time w (S n)], asks
    for the status and sleeps. The result names how the loop was left and
    in which iteration; [None] only when [fuel] iterations were not
    enough. *)
Fixpoint wait_loop (w : World) (esm : EventSourceManager)
    (event_callback : event -> M unit) (stream_id : value) (start_time : Z)
    (fuel n : nat) (st : state) : option (wait_exit * nat * state) :=
  match fuel with
  | O => None
  | S fuel' =>
      if time_time w (S n) - start_time <? timeout then
        let st1 := (emit (GetStreamStatus stream_id) st).2 in
        if is_terminal_status (get_stream_status esm n stream_id) then
          Some (Terminal, n, st1)
        else
          wait_loop w esm event_callback stream_id start_time fuel' (S n)
            (deliver event_callback (events_while_sleeping esm n) st1)
      else Some (TimedOut, n, st)
  end.

(** The body of [_handle_streaming_response]. Besides the result and the
    state it reports how the waiting loop was left and in which iteration
    ([None] when the loop was never entered); the method itself forgets
    that report. *)
Definition collect_streaming_response (w : World) (self : ChatService) (fuel : nat)
    (data : gmap string value)
    (on_chunk : option (callback value)) (on_complete : option (callback unit))
    (on_error : option (callback exn)) (st : state)
  : option (outcome value * state * option (wait_exit * nat)) :=
  match event_source_manager self with
  | None =>
      Some (Raise (StreamingResponseError "EventSourceManager not available"), st, None)
  | Some esm =>
      let st0 := mkState [] (trace st) in
      match data !! "message" with
      | None => Some (Raise (KeyError "message"), st0, None)
      | Some message =>
          let agent := dict_get_default data "agent" (VStr "") in
          let model := dict_get_default data "model" (VStr "") in
          let st1 := (emit (StartChatStream message agent model) st0).2 in
          match start_chat_stream esm message agent model with
          | Raise e => Some (Raise e, st1, None)
          | Return stream_id =>
              let event_callback := default_chunk_handler on_chunk on_error in
              let st2 := deliver event_callback (events_on_start esm) st1 in
              match wait_loop w esm event_callback stream_id (time_time w 0) fuel 0 st2 with
              | None => None
              | Some (exit, n, st3) =>
                  match str_join (collected_response st3) with
                  | Return text => Some (Return (VStr text), st3, Some (exit, n))
                  | Raise e => Some (Raise e, st3, Some (exit, n))
                  end
              end
          end
      end
  end.

Definition _handle_streaming_response (w : World) (self : ChatService) (fuel : nat)
    (data : gmap string value)
    (on_chunk : option (callback value)) (on_complete : option (callback unit))
    (on_error : option (callback exn)) (st : state)
  : option (outcome value * state) :=
  fst <$> collect_streaming_response w self fuel data on_chunk on_complete on_error st.

(** ** [ChatService.send_message] *)

(** [self._handle_streaming_response(data, **kwargs)]. [kwargs] holds the
    names of the keyword arguments that [send_message] has no parameter
    for. [on_chunk], [on_complete] and [on_error] are parameters of
    [send_message], so Python binds them there and they never reach
    [kwargs]; [_handle_streaming_response] accepts no other keyword, so a
    name in [kwargs] raises [TypeError] and an empty [kwargs] leaves the
    three callbacks of [_handle_streaming_response] at their default. *)
Definition call_handle_streaming_response (w : World) (self : ChatService) (fuel : nat)
    (data : gmap string value) (kwargs : list string) (st : state)
  : option (outcome value * state) :=
  match kwargs with
  | [] => _handle_streaming_response w self fuel data None None None st
  | name :: _ =>
      Some (Raise (TypeError ("_handle_streaming_response() got an unexpected keyword argument "
                              ++ name)), st)
  end.

Definition send_message (w : World) (self : ChatService) (fuel : nat)
    (message : string) (options : option (gmap string value)) (streaming : bool)
    (on_chunk : option (callback value)) (on_complete : option (callback unit))
    (on_error : option (callback exn)) (kwargs : list string) (st : state)
  : option (outcome value * state) :=
  let data : gmap string value := {[ "message"%string := VStr message ]} in
  let options : gmap string value := default ∅ options in
  if negb (truthy (dict_get options "agent")) then
    Some (Raise (ValidationError "agent is required" "agent"), st)
  else
    let data := dict_update data options in
    let attempt :=
      if (streaming && bool_decide (is_Some (event_source_manager self))
          && is_feature_enabled w "streaming_responses")%bool then
        call_handle_streaming_response w self fuel data kwargs st
      else
        let st1 := (emit (HttpPost (CHAT w) data) st).2 in
        match post (http_client self) (CHAT w) data with
        | Return response => Some (Return response, st1)
        | Raise e => Some (Raise e, st1)
        end in
    match attempt with
    | Some (Raise e, st') =>
        if (isinstance_Exception e && has_logger (http_client self))%bool then
          Some (Raise e,
                (emit (LoggerError ("Chat request failed for message: "
                                    ++ String.substring 0 50 message ++ "...")) st').2)
        else Some (Raise e, st')
    | r => r
    end.

(** ** [ChatService._send_streaming_message] and [send_streaming_message] *)

(** [v == s] for a string literal [s]. *)
Definition str_equal (v : value) (s : string) : bool :=
  match v with
  | VStr t => String.eqb t s
  | _ => false
  end.

(** [a or b]. *)
Definition py_or (a b : value) : value := if truthy a then a else b.

Definition handle_event (on_chunk : option (callback value))
    (on_complete : option (callback unit)) (on_error : option (callback exn))
    (ev : event) : M unit :=
  try_except_Exception
    (match ev_data ev with
     | None => raise (AttributeError "data")
     | Some (VDict event_data) =>
         if str_equal (dict_get event_data "status") "complete" then
           invoke_if_set on_complete (fun _ => OnComplete) tt
         else if str_equal (dict_get event_data "status") "error" then
           let error_msg := dict_get_default event_data "error" (VStr "Stream error") in
           invoke_if_set on_error OnError (PyException error_msg)
         else
           match event_data !! "response" with
           | Some response =>
               let chunk_data : gmap string value :=
                 <[ "message"%string := response ]>
                   {[ "tokens_per_second"%string :=
                        dict_get_default event_data "tokens_per_second" (VInt 0) ]} in
               invoke_if_set on_chunk OnChunk (VDict chunk_data)
           | None => mret tt
           end
     | Some _ => raise (AttributeError "get")
     end)
    (fun e => invoke_if_set on_error OnError e).

Definition _send_streaming_message (self : ChatService) (data : gmap string value)
    (on_chunk : option (callback value)) (on_complete : option (callback unit))
    (on_error : option (callback exn)) : M value :=
  fun st =>
    match event_source_manager self with
    | None => (Raise (StreamingResponseError "EventSourceManager not available"), st)
    | Some esm =>
        match data !! "message" with
        | None => (Raise (KeyError "message"), st)
        | Some message =>
            let agent := dict_get_default data "agent" (VStr "") in
            let model := dict_get_default data "model" (VStr "") in
            let st1 := (emit (StartChatStream message agent model) st).2 in
            match start_chat_stream esm message agent model with
            | Raise e => (Raise e, st1)
            | Return stream_id =>
                (Return stream_id,
                 deliver (handle_event on_chunk on_complete on_error)
                   (events_on_start esm) st1)
            end
        end
    end.

(** The [require_feature] decorator runs first; its code is not part of
    the module, so [require_feature w] says whether it raises. *)
Definition send_streaming_message (w : World) (self : ChatService)
    (message agent model : value)
    (on_chunk : option (callback value)) (on_complete : option (callback unit))
    (on_error : option (callback exn)) : M value :=
  match require_feature w "streaming_responses" with
  | Some e => raise e
  | None =>
      match event_source_manager self with
      | None =>
          raise (StreamingResponseError
                   "Streaming not available - EventSourceManager not initialized")
      | Some _ =>
          let default_model :=
            if negb (String.eqb (system w) "darwin")
            then VStr "unsloth/Qwen3-1.7B-bnb-4bit"
            else VStr "mlx-community/Qwen3-1.7B-bnb-4bit" in
          let data : gmap string value :=
            <[ "message"%string := message ]>
              (<[ "agent"%string := py_or agent (VStr "") ]>
                 {[ "model"%string := py_or model default_model ]}) in
          _send_streaming_message self data on_chunk on_complete on_error
      end
  end.

(** ** Control calls: the only places that stop, pause or resume a stream *)

Definition control_call (self : ChatService) (op : effect) : M unit :=
  match event_source_manager self with
  | Some _ => emit op
  | None => mret tt
  end.

Definition stop_stream (self : ChatService) (stream_id : value) : M unit :=
  control_call self (StopStream stream_id).

Definition pause_stream (self : ChatService) (stream_id : value) : M unit :=
  control_call self (PauseStream stream_id).

Definition resume_stream (self : ChatService) (stream_id : value) : M unit :=
  control_call self (ResumeStream stream_id).

(** An effect that changes a stream: stop, pause or resume. *)
Definition changes_stream (e : effect) : bool :=
  match e with
  | StopStream _ | PauseStream _ | ResumeStream _ => true
  | _ => false
  end.

(** An effect that reaches the network: an HTTP request or the opening of
    an event stream. *)
Definition is_network_activity (e : effect) : bool :=
  match e with
  | HttpPost _ _ | StartChatStream _ _ _ => true
  | _ => false
  end.

(** The arguments [on_chunk] was called with, oldest first. *)
Definition on_chunk_args (tr : list effect) : list value :=
  omap (fun e => match e with OnChunk a => Some a | _ => None end) tr.

(** ** Test fixtures *)

Definition world0 : World :=
  mkWorld (fun n => Z.of_nat n * 100) (fun _ => true) (fun _ => None) "x86_64" "/chat".

Definition ok_post : string -> gmap string value -> outcome value :=
  fun _ _ => Return (VDict {[ "response"%string := VStr "ok" ]}).

Definition ev_of (l : list (string * value)) : event :=
  mkEvent (Some (VDict (list_to_map l))).

(** The manager of the spec's scenario: [{response:"Hi"}],
    [{response:" there"}], [{status:"complete"}], one per sleep, and the
    status [COMPLETED] from the fourth query on. *)
Definition esm_hi_there : EventSourceManager :=
  mkESM (fun _ _ _ => Return (VStr "stream-1")) []
        (fun n _ => if (n <? 3)%nat then VStr "STREAMING" else VStr "COMPLETED")
        (fun n => match n with
                  | 0%nat => [ev_of [("response"%string, VStr "Hi")]]
                  | 1%nat => [ev_of [("response"%string, VStr " there")]]
                  | 2%nat => [ev_of [("status"%string, VStr "complete")]]
                  | _ => []
                  end).

(** A manager whose stream stays open and silent after one chunk. *)
Definition esm_never : EventSourceManager :=
  mkESM (fun _ _ _ => Return (VStr "stream-1"))
        [ev_of [("response"%string, VStr "Hi")]]
        (fun _ _ => VStr "STREAMING") (fun _ => []).

Definition service_plain : ChatService := mkChatService (mkHttpClient ok_post true) None.
Definition service_hi : ChatService :=
  mkChatService (mkHttpClient ok_post true) (Some esm_hi_there).
Definition service_never : ChatService :=
  mkChatService (mkHttpClient ok_post true) (Some esm_never).

(** A service without manager whose client fails and has a logger. *)
Definition service_failing : ChatService :=
  mkChatService
    (mkHttpClient (fun _ _ => Raise (RaisedException "ConnectionError")) true) None.

(** A manager that delivers a number where a text is expected. *)
Definition esm_number : EventSourceManager :=
  mkESM (fun _ _ _ => Return (VStr "stream-1"))
        [ev_of [("response"%string, VInt 5)]]
        (fun _ _ => VStr "STREAMING") (fun _ => []).

Definition service_number : ChatService :=
  mkChatService (mkHttpClient ok_post true) (Some esm_number).

Definition agent_general : gmap string value := {[ "agent"%string := VStr "general" ]}.

Definition options_bye : gmap string value :=
  <[ "agent"%string := VStr "general" ]> {[ "message"%string := VStr "Bye" ]}.

Definition data_hello : gmap string value := {[ "message"%string := VStr "Hello" ]}.

Definition quiet {A} : callback A := fun _ _ => None.
Definition failing {A} (e : exn) : callback A := fun _ _ => Some e.

(** ** Vocabulary of the properties *)

(** The fragments [default_chunk_handler] keeps from a run of events:
    the texts it reads that are true in a boolean test, in order. *)
Definition fragments (evs : list event) : list value :=
  omap (fun ev => if truthy (chunk_text_of ev) then Some (chunk_text_of ev) else None) evs.

(** Events the manager delivers during the sleeps of iterations
    [from, from + count). *)
Definition slept_events (esm : EventSourceManager) (from count : nat) : list event :=
  mjoin (events_while_sleeping esm <$> seq from count).

(** Everything delivered before the loop test of iteration [n]. *)
Definition delivered_before (esm : EventSourceManager) (n : nat) : list event :=
  events_on_start esm ++ slept_events esm 0 n.

(** [advances on_chunk st st' frags]: from [st] to [st'] the accumulator
    grew by exactly [frags], the trace grew by calls none of which changes
    a stream, and the calls to [on_chunk] among them carry exactly
    [frags] when a handler is set and are absent otherwise. *)
Definition advances (on_chunk : option (callback value)) (st st' : state)
    (frags : list value) : Prop :=
  collected_response st' = collected_response st ++ frags /\
  exists tr',
    trace st' = trace st ++ tr' /\
    Forall (fun e => changes_stream e = false /\ is_network_activity e = false) tr' /\
    on_chunk_args tr' = match on_chunk with Some _ => frags | None => [] end.

(** The value of the first key of [keys] that the mapping has. *)
Fixpoint first_present (keys : list string) (d : gmap string value) : option value :=
  match keys with
  | [] => None
  | key :: keys' =>
      match d !! key with
      | Some v => Some v
      | None => first_present keys' d
      end
  end.

(** [has_field ev key]: the event carries a mapping with that key. *)
Definition has_field (ev : event) (key : string) : bool :=
  match ev_data ev with
  | Some (VDict d) => dict_contains d key
  | _ => false
  end.

(** The message an effect carries to the server, if it carries one. *)
Definition sent_message (e : effect) : option (option value) :=
  match e with
  | HttpPost _ data => Some (data !! "message")
  | StartChatStream message _ _ => Some (Some message)
  | _ => None
  end.

(** The text [_handle_streaming_response] returns or the [TypeError] of
    [''.join]. *)
Definition joined (parts : list value) : outcome value :=
  match str_join parts with
  | Return text => Return (VStr text)
  | Raise e => Raise e
  end.

(** Whatever [e] sends to the server, its message entry is [m]. *)
Definition carries (m : option value) (e : effect) : Prop :=
  forall sent, sent_message e = Some sent -> sent = m.

(** [waits_at_most w self data T overhead]: every run of the collect path
    that waited for the stream left its loop less than [T + overhead]
    milliseconds after it read the start time. *)
Definition waits_at_most (w : World) (self : ChatService) (data : gmap string value)
    (T overhead : Z) : Prop :=
  forall fuel on_chunk on_complete on_error st r st' exit n,
    collect_streaming_response w self fuel data on_chunk on_complete on_error st
      = Some (r, st', Some (exit, n)) ->
    time_time w (S n) - time_time w 0 < T + overhead.

(** A clock that [time.sleep(0.1)] moves forward by at least the polling
    interval, and on which one turn of the loop, from one reading to the
    next, takes at most [delta]. *)
Definition clock_ticks (w : World) (delta : Z) : Prop :=
  time_time w 0 <= time_time w 1 /\
  (forall n, time_time w (S n) + poll_interval <= time_time w (S (S n))) /\
  (forall n, time_time w (S n) <= time_time w n + delta).

(** ** Further vocabulary *)

(** A call to a caller-supplied handler. *)
Definition is_callback (e : effect) : bool :=
  match e with
  | OnChunk _ | OnComplete | OnError _ => true
  | _ => false
  end.

(** [isinstance(v, str)]. *)
Definition is_str (v : value) : bool :=
  match v with
  | VStr _ => true
  | _ => false
  end.

(** The requests among the calls of a trace: HTTP posts and stream
    openings. *)
Definition requests (tr : list effect) : list effect :=
  List.filter is_network_activity tr.

(** The status queries among the calls of a trace. *)
Definition status_queries (tr : list effect) : list effect :=
  List.filter (fun e => match e with GetStreamStatus _ => true | _ => false end) tr.

(** Every call a handler makes that raises, raises an instance of
    [Exception]. *)
Definition raises_only_Exception {A} (f : option (callback A)) : Prop :=
  forall g tr a e, f = Some g -> g tr a = Some e -> isinstance_Exception e = true.

(** ** [ChatService.send_message_with_files] *)

(** A value of the [files] mapping handed to [http_client.post]: the
    tuple [(filename, content, mime)] built from a path, or the object the
    caller passed. *)
Inductive upload : Type :=
  | FileTuple (filename content mime : string)
  | FileObject (obj : value).

(** [open(path, 'rb')] followed by [read()], and [os.path.basename]. *)
Record FileSystem : Type := mkFileSystem {
  open_rb : string -> outcome string;
  basename : string -> string
}.

(** What [send_message_with_files] does to the outside, oldest first:
    files opened, and posts with their form data and [files] mapping
    ([None] when the keyword is not given). *)
Inductive file_effect : Type :=
  | OpenRead (path : string)
  | PostForm (endpoint : string) (data : gmap string value)
      (files : option (gmap string upload)).

(** The loop of lines 200-206: every item overwrites the one entry
    ['files'] of [file_data]. *)
Fixpoint read_files (fs : FileSystem) (files : list value)
    (file_data : gmap string upload) (log : list file_effect)
  : outcome (gmap string upload) * list file_effect :=
  match files with
  | [] => (Return file_data, log)
  | VStr file_path :: rest =>
      match open_rb fs file_path with
      | Return content =>
          read_files fs rest
            (<[ "files"%string :=
                  FileTuple (basename fs file_path) content "application/octet-stream" ]>
               file_data)
            (log ++ [OpenRead file_path])
      | Raise e => (Raise e, log ++ [OpenRead file_path])
      end
  | obj :: rest =>
      read_files fs rest (<[ "files"%string := FileObject obj ]> file_data) log
  end.

(** Lines 198-214: the [files] mapping for a list of files or for a
    single one. *)
Definition prepare_files (fs : FileSystem) (files : value)
  : outcome (gmap string upload) * list file_effect :=
  match files with
  | VList items => read_files fs items ∅ []
  | VStr file_path =>
      match open_rb fs file_path with
      | Return content =>
          (Return {[ "files"%string :=
                       FileTuple (basename fs file_path) content
                         "application/octet-stream" ]},
           [OpenRead file_path])
      | Raise e => (Raise e, [OpenRead file_path])
      end
  | obj => (Return {[ "files"%string := FileObject obj ]}, [])
  end.

(** The model used when [options] names none: the choice of lines 180-191
    and 215-227, made by comparing [system] with ['darwin']. *)
Definition default_model (w : World) : value :=
  if negb (String.eqb (system w) "darwin")
  then VStr "unsloth/Qwen3-1.7B-bnb-4bit"
  else VStr "mlx-community/Qwen3-1.7B-bnb-4bit".

(** [options.get(key, dflt) if options else dflt]. *)
Definition option_or_default (options : option (gmap string value)) (key : string)
    (dflt : value) : value :=
  match options with
  | Some o => if truthy (VDict o) then dict_get_default o key dflt else dflt
  | None => dflt
  end.

(** Lines 215-231: the form data of the RAG initialisation. *)
Definition upload_data_of (w : World) (options : option (gmap string value))
  : gmap string value :=
  let base : gmap string value :=
    <[ "agent"%string := option_or_default options "agent" (VStr "general") ]>
      (<[ "model"%string := option_or_default options "model" (default_model w) ]>
         {[ "use_finetuning"%string := VBool false ]}) in
  match options with
  | Some o =>
      if truthy (VDict o) then
        dict_update base
          (filter (fun kv : string * value => kv.1 ∉ ["agent"; "model"]%string) o)
      else base
  | None => base
  end.

(** [post_with_files] is [self.http_client.post] called with the [files]
    keyword; [INITIALIZE_RAG] is the endpoint constant the module
    imports. *)
Definition send_message_with_files (w : World) (self : ChatService) (fs : FileSystem)
    (post_with_files : string -> gmap string value -> gmap string upload -> outcome value)
    (INITIALIZE_RAG : string)
    (message : string) (files : value) (options : option (gmap string value))
  : outcome value * list file_effect :=
  match prepare_files fs files with
  | (Raise e, log) => (Raise e, log)
  | (Return file_data, log) =>
      let upload_data := upload_data_of w options in
      let log1 := log ++ [PostForm INITIALIZE_RAG upload_data (Some file_data)] in
      match post_with_files INITIALIZE_RAG upload_data file_data with
      | Raise e => (Raise e, log1)
      | Return rag_response =>
          let chat_data : gmap string value :=
            <[ "message"%string := VStr message ]>
              (<[ "agent"%string := dict_get upload_data "agent" ]>
                 {[ "model"%string := dict_get upload_data "model" ]}) in
          (post (http_client self) (CHAT w) chat_data,
           log1 ++ [PostForm (CHAT w) chat_data None])
      end
  end.

(** The entry one item of [files] leaves in the mapping: lines 201-206. *)
Definition upload_of (fs : FileSystem) (item : value) : outcome upload :=
  match item with
  | VStr file_path =>
      match open_rb fs file_path with
      | Return content =>
          Return (FileTuple (basename fs file_path) content "application/octet-stream")
      | Raise e => Raise e
      end
  | obj => Return (FileObject obj)
  end.

(** The items of a list that are paths. *)
Definition paths_of (items : list value) : list string :=
  omap (fun v => match v with VStr p => Some p | _ => None end) items.

(** The posts among the effects of [send_message_with_files]. *)
Definition posts_of (log : list file_effect) : list file_effect :=
  List.filter (fun e => match e with PostForm _ _ _ => true | OpenRead _ => false end) log.

(** A file system with two readable files, and a client whose RAG
    initialisation succeeds. *)
Definition fs0 : FileSystem :=
  mkFileSystem
    (fun p => if String.eqb p "/tmp/a.txt" then Return "alpha"%string
              else if String.eqb p "/tmp/b.txt" then Return "beta"%string
              else Raise (RaisedException "FileNotFoundError"))
    (fun p => if String.eqb p "/tmp/a.txt" then "a.txt"%string
              else if String.eqb p "/tmp/b.txt" then "b.txt"%string else p).

Definition rag_ok : string -> gmap string value -> gmap string upload -> outcome value :=
  fun _ _ _ => Return (VDict {[ "status"%string := VStr "initialized" ]}).

Definition rag_down : string -> gmap string value -> gmap string upload -> outcome value :=
  fun _ _ _ => Raise (RaisedException "ConnectionError").

Definition options_temperature : gmap string value :=
  <[ "message"%string := VStr "override" ]> {[ "top_k"%string := VInt 5 ]}.

(** ** [agent/creation/builder.py]: the caller of [send_message] *)

(** The member names of the enum [AgentPersonality]. *)
Inductive AgentPersonality : Type :=
  | PROFESSIONAL | FRIENDLY | ANALYTICAL | CREATIVE
  | TECHNICAL | SUPPORTIVE | CONCISE | DETAILED.

(** The member names of the enum [AgentCapability]. *)
Inductive capability_name : Type :=
  | FILE_PROCESSING | WEB_SEARCH | CALCULATIONS | CODE_ANALYSIS | IMAGE_GENERATION
  | EMAIL_INTEGRATION | CALENDAR_MANAGEMENT | DATA_ANALYSIS | DOCUMENT_CREATION
  | API_INTEGRATION.

(** [builder.py] and [types.py] each declare a class [AgentPersonality]
    and a class [AgentCapability], with the same names and values. They
    are different classes: a member of one is not an instance of the
    other and compares unequal to every member of the other. The
    templates, which [from_template] copies into the builder, are made of
    the classes of [types.py]. *)
Inductive enum_module : Type := BuilderModule | TypesModule.

(** A member of one of the two [AgentCapability] classes; [==] and [in]
    compare the class and the name. *)
Record AgentCapability : Type := mkCapability {
  capability_module : enum_module;
  capability_member : capability_name
}.

#[global] Instance capability_name_eq_dec : EqDecision capability_name.
Proof. solve_decision. Defined.

#[global] Instance enum_module_eq_dec : EqDecision enum_module.
Proof. solve_decision. Defined.

#[global] Instance AgentCapability_eq_dec : EqDecision AgentCapability.
Proof. solve_decision. Defined.

(** What the [personality] field holds: a member of the class
    [AgentPersonality] of [builder.py] ([PersonalityEnum]), a member of
    the class of the same name of [types.py], or a string. *)
Inductive personality_value : Type :=
  | PersonalityEnum (p : AgentPersonality)
  | PersonalityTypesEnum (p : AgentPersonality)
  | PersonalityStr (s : string).

(** A Python float: a finite value, read as a rational, an infinity or a
    NaN. *)
Inductive pyfloat : Type :=
  | Finite (q : Q)
  | PosInf
  | NegInf
  | NaN.

(** [AgentConfig]. [custom_instructions] is a [dict] whose order of
    insertion shows in the prompt, hence a list of pairs with distinct
    keys; the callables of [custom_functions] are known by name only. *)
Record AgentConfig : Type := mkAgentConfig {
  name : string;
  description : string;
  personality : personality_value;
  system_prompt : string;
  capabilities : list AgentCapability;
  custom_functions : list string;
  model_config : option value;
  memory_config : option value;
  temperature : pyfloat;
  max_tokens : Z;
  context_length : Z;
  file_types : list string;
  custom_instructions : list (string * string);
  metadata : gmap string value
}.

(** [CustomAgent]: [sdk] is the SDK instance, known here by its
    [chat_service]. *)
Record CustomAgent : Type := mkCustomAgent {
  config : AgentConfig;
  sdk : option ChatService;
  is_initialized : bool
}.

Definition set_capabilities (c : AgentConfig) (caps : list AgentCapability) : AgentConfig :=
  mkAgentConfig (name c) (description c) (personality c) (system_prompt c) caps
    (custom_functions c) (model_config c) (memory_config c) (temperature c)
    (max_tokens c) (context_length c) (file_types c) (custom_instructions c) (metadata c).

(** [AgentBuilder.with_capability]: the builder is its [config]. *)
Definition with_capability (c : AgentConfig) (capability : AgentCapability) : AgentConfig :=
  if bool_decide (capability ∉ capabilities c)
  then set_capabilities c (capabilities c ++ [capability])
  else c.

(** [AgentBuilder.with_capabilities]. *)
Definition with_capabilities (c : AgentConfig) (caps : list AgentCapability) : AgentConfig :=
  fold_left with_capability caps c.

(** [CustomAgent.enable_capability]. *)
Definition enable_capability (agent : CustomAgent) (capability : AgentCapability)
  : CustomAgent :=
  mkCustomAgent (with_capability (config agent) capability) (sdk agent)
    (is_initialized agent).

(** [AgentBuilder.build]. The [ValidationError]s here are raised with a
    message only; the field name, left at its default, is written [""]. *)
Definition build (c : AgentConfig) (sdk_instance : option ChatService)
  : outcome CustomAgent :=
  if negb (truthy (VStr (name c))) then
    Raise (ValidationError "Agent name is required" "")
  else if negb (truthy (VStr (description c))) then
    Raise (ValidationError "Agent description is required" "")
  else Return (mkCustomAgent c sdk_instance true).

(** [a < b] on the rationals. *)
Definition Qltb (a b : Q) : bool := negb (Qle_bool b a).

(** [a < b] on floats: false whenever one side is a NaN. *)
Definition float_ltb (a b : pyfloat) : bool :=
  match a, b with
  | NaN, _ | _, NaN => false
  | NegInf, NegInf => false
  | NegInf, _ => true
  | _, NegInf => false
  | PosInf, _ => false
  | Finite _, PosInf => true
  | Finite x, Finite y => Qltb x y
  end.

(** [AgentBuilder.validate]. *)
Definition validate (c : AgentConfig) : list string :=
  (if negb (truthy (VStr (name c))) then ["Agent name is required"%string] else [])
  ++ (if negb (truthy (VStr (description c)))
      then ["Agent description is required"%string] else [])
  ++ (if (float_ltb (temperature c) (Finite 0) || float_ltb (Finite 2) (temperature c))%bool
      then ["Temperature must be between 0 and 2"%string] else [])
  ++ (if max_tokens c <=? 0 then ["Max tokens must be positive"%string] else []).

(** [CustomAgent._get_personality_prompt]: [isinstance] is tested against
    the class of [builder.py], so a member of the class of [types.py]
    gets the empty prompt, like a string. *)
Definition _get_personality_prompt (c : AgentConfig) : string :=
  match personality c with
  | PersonalityEnum p =>
      match p with
      | PROFESSIONAL => "Respond in a professional, formal manner."
      | FRIENDLY => "Respond in a warm, friendly, and approachable manner."
      | ANALYTICAL => "Provide detailed, analytical responses with logical reasoning."
      | CREATIVE => "Think creatively and provide innovative solutions."
      | TECHNICAL => "Focus on technical accuracy and provide detailed explanations."
      | SUPPORTIVE => "Be encouraging and provide helpful guidance."
      | CONCISE => "Provide brief, direct responses."
      | DETAILED => "Provide comprehensive, detailed explanations."
      end
  | PersonalityTypesEnum _ => ""
  | PersonalityStr _ => ""
  end.

(** The separator ["\n\n"]. *)
Definition blank_line : string :=
  String (Ascii.ascii_of_nat 10) (String (Ascii.ascii_of_nat 10) "").

(** The list [prompt_parts] of [CustomAgent._build_prompt]. *)
Definition prompt_parts (json_dumps_indent2 : value -> string) (c : AgentConfig)
    (message : string) (context : option (gmap string value)) : list string :=
  (if truthy (VStr (system_prompt c)) then ["System: " +:+ system_prompt c] else [])
  ++ (if truthy (VStr (_get_personality_prompt c)) then [_get_personality_prompt c] else [])
  ++ ((fun kv : string * string => kv.1 +:+ ": " +:+ kv.2) <$> custom_instructions c)
  ++ (match context with
      | Some d =>
          if truthy (VDict d) then ["Context: " +:+ json_dumps_indent2 (VDict d)] else []
      | None => []
      end)
  ++ ["User: " +:+ message].

(** [CustomAgent._build_prompt]. *)
Definition _build_prompt (json_dumps_indent2 : value -> string) (c : AgentConfig)
    (message : string) (context : option (gmap string value)) : string :=
  String.concat blank_line (prompt_parts json_dumps_indent2 c message context).

(** [AgentInitializationError(msg)], a subclass of [Exception] declared
    outside the module. *)
Definition AgentInitializationError (msg : string) : exn :=
  RaisedException ("AgentInitializationError: " +:+ msg).

(** The options [process_message] hands to [send_message]: lines 86-89. *)
Definition options_with_agent (c : AgentConfig) (options : option (gmap string value))
  : gmap string value :=
  let options : gmap string value := default ∅ options in
  if negb (dict_contains options "agent")
  then <[ "agent"%string := VStr (name c) ]> options
  else options.

(** [CustomAgent.process_message]. *)
Definition process_message (w : World) (json_dumps_indent2 : value -> string)
    (agent : CustomAgent) (fuel : nat) (message : string)
    (options : option (gmap string value)) (st : state)
  : option (outcome value * state) :=
  if negb (is_initialized agent) then
    Some (Raise (AgentInitializationError "Agent not initialized"), st)
  else
    let full_prompt := _build_prompt json_dumps_indent2 (config agent) message options in
    match sdk agent with
    | Some chat_service =>
        send_message w chat_service fuel full_prompt
          (Some (options_with_agent (config agent) options)) false None None None [] st
    | None =>
        Some (Return (VStr ("[" +:+ name (config agent) +:+ "] Processed: " +:+ message)), st)
    end.

(** A configuration as a builder would hold it after [name],
    [description], [system_prompt], one capability and one instruction. *)
Definition config0 : AgentConfig :=
  mkAgentConfig "helper" "A helpful agent" (PersonalityEnum CONCISE) "Be kind."
    [mkCapability BuilderModule FILE_PROCESSING] [] None None (Finite 0.7%Q) 2000 4096 []
    [("tone"%string, "calm"%string)] ∅.

(** The same with nothing but the two required fields. *)
Definition config_bare : AgentConfig :=
  mkAgentConfig "helper" "A helpful agent" (PersonalityStr "custom") ""
    [] [] None None (Finite 0.7%Q) 2000 4096 [] [] ∅.

(** A configuration [build] accepts and [validate] rejects. *)
Definition config_hot : AgentConfig :=
  mkAgentConfig "helper" "A helpful agent" (PersonalityEnum CONCISE) ""
    [] [] None None (Finite 3%Q) 0 4096 [] [] ∅.

(** A configuration as [from_template] leaves it: personality and
    capability are members of the classes of [types.py]; and one whose
    temperature is a NaN. *)
Definition config_template : AgentConfig :=
  mkAgentConfig "research_assistant" "Research help" (PersonalityTypesEnum ANALYTICAL) ""
    [mkCapability TypesModule WEB_SEARCH] [] None None (Finite 0.5%Q) 2000 4096 [] [] ∅.

Definition config_nan : AgentConfig :=
  mkAgentConfig "helper" "A helpful agent" (PersonalityStr "custom") ""
    [] [] None None NaN 2000 4096 [] [] ∅.

(** A stand-in for [json.dumps(x, indent=2)]. *)
Definition json0 : value -> string := fun _ => "{...}"%string.

(** * Properties *)

(** ** How the accumulator and the trace move *)

Lemma advances_refl on_chunk st : advances on_chunk st st [].
Proof.
  split; [by rewrite app_nil_r|].
  exists []. rewrite app_nil_r. repeat split; [constructor | by destruct on_chunk].
Qed.

Lemma advances_trans on_chunk st1 st2 st3 f1 f2 :
  advances on_chunk st1 st2 f1 -> advances on_chunk st2 st3 f2 ->
  advances on_chunk st1 st3 (f1 ++ f2).
Proof.
  intros [Hc1 (t1 & Ht1 & Hf1 & Ho1)] [Hc2 (t2 & Ht2 & Hf2 & Ho2)].
  split; [by rewrite Hc2, Hc1, app_assoc|].
  exists (t1 ++ t2). split; [by rewrite Ht2, Ht1, app_assoc|].
  split; [by apply Forall_app|].
  unfold on_chunk_args in *. rewrite omap_app, Ho1, Ho2.
  by destruct on_chunk.
Qed.

Lemma advances_emit_status on_chunk sid st :
  advances on_chunk st (emit (GetStreamStatus sid) st).2 [].
Proof.
  split; [by rewrite app_nil_r|].
  exists [GetStreamStatus sid]. repeat split; [by repeat constructor | by destruct on_chunk].
Qed.

Lemma fragments_app evs1 evs2 : fragments (evs1 ++ evs2) = fragments evs1 ++ fragments evs2.
Proof. apply omap_app. Qed.

Lemma default_chunk_handler_advances on_chunk on_error ev st :
  advances on_chunk st (default_chunk_handler on_chunk on_error ev st).2 (fragments [ev]).
Proof.
  unfold default_chunk_handler, try_except_Exception, fragments; simpl.
  destruct (truthy (chunk_text_of ev)) eqn:Ht; [|apply advances_refl].
  unfold mbind, M_bind, collected_response_append, invoke_if_set, invoke.
  destruct on_chunk as [f|]; simpl.
  - destruct (f (trace st) (chunk_text_of ev)) as [e|] eqn:Hf; simpl.
    + destruct (isinstance_Exception e); [destruct on_error as [g|]; simpl|].
      * destruct (g _ e); simpl; (split; [done|]);
          exists [OnChunk (chunk_text_of ev); OnError e];
          (split; [by rewrite <- app_assoc|]); by repeat constructor.
      * split; [done|]. exists [OnChunk (chunk_text_of ev)]. by repeat constructor.
      * split; [done|]. exists [OnChunk (chunk_text_of ev)]. by repeat constructor.
    + split; [done|]. exists [OnChunk (chunk_text_of ev)]. by repeat constructor.
  - split; [done|]. exists []. rewrite app_nil_r. by repeat constructor.
Qed.

Lemma deliver_advances on_chunk on_error evs st :
  advances on_chunk st (deliver (default_chunk_handler on_chunk on_error) evs st)
    (fragments evs).
Proof.
  revert st. induction evs as [|ev evs IH]; intros st; [apply advances_refl|].
  change (ev :: evs) with ([ev] ++ evs). rewrite fragments_app.
  eapply advances_trans; [apply default_chunk_handler_advances|].
  apply IH.
Qed.

Lemma slept_events_S esm from count :
  slept_events esm from (S count)
  = events_while_sleeping esm from ++ slept_events esm (S from) count.
Proof. reflexivity. Qed.

(** What a finished waiting loop has done, whichever way it was left. *)
Lemma wait_loop_advances w esm on_chunk on_error sid t0 fuel :
  forall n0 st exit n st',
    wait_loop w esm (default_chunk_handler on_chunk on_error) sid t0 fuel n0 st
      = Some (exit, n, st') ->
    (n0 <= n)%nat /\
    advances on_chunk st st' (fragments (slept_events esm n0 (n - n0))).
Proof.
  induction fuel as [|fuel IH]; intros n0 st exit n st' H; simpl in H; [done|].
  destruct (time_time w (S n0) - t0 <? timeout).
  - destruct (is_terminal_status (get_stream_status esm n0 sid)).
    + inversion H; subst. split; [lia|]. rewrite Nat.sub_diag.
      apply advances_emit_status.
    + apply IH in H as [Hle Hadv]. split; [lia|].
      replace (n - n0)%nat with (S (n - S n0)) by lia.
      rewrite slept_events_S, fragments_app.
      eapply (advances_trans _ _ _ _ [] _); [apply advances_emit_status|].
      eapply advances_trans; [apply deliver_advances|apply Hadv].
  - inversion H; subst. split; [lia|]. rewrite Nat.sub_diag. apply advances_refl.
Qed.

(** Every way [collect_streaming_response] can end. Either the stream was
    never waited for and an exception comes back, with at most the opening
    of the stream in the trace; or the loop was left in some iteration [n]
    and the result is the join of the fragments of all the events
    delivered before that. *)
Lemma collect_streaming_response_inv w self fuel data on_chunk on_complete on_error
    st r st' info :
  collect_streaming_response w self fuel data on_chunk on_complete on_error st
    = Some (r, st', info) ->
  match info with
  | None =>
      (exists e, r = Raise e) /\
      (st' = st \/ st' = mkState [] (trace st) \/
       exists message,
         data !! "message" = Some message /\
         st' = mkState [] (trace st ++
                 [StartChatStream message (dict_get_default data "agent" (VStr ""))
                    (dict_get_default data "model" (VStr ""))]))
  | Some (exit, n) =>
      exists esm message stream_id,
        event_source_manager self = Some esm /\
        data !! "message" = Some message /\
        start_chat_stream esm message (dict_get_default data "agent" (VStr ""))
          (dict_get_default data "model" (VStr "")) = Return stream_id /\
        wait_loop w esm (default_chunk_handler on_chunk on_error) stream_id
          (time_time w 0) fuel 0
          (deliver (default_chunk_handler on_chunk on_error) (events_on_start esm)
             (mkState [] (trace st ++
                [StartChatStream message (dict_get_default data "agent" (VStr ""))
                   (dict_get_default data "model" (VStr ""))])))
          = Some (exit, n, st') /\
        advances on_chunk
          (mkState [] (trace st ++
             [StartChatStream message (dict_get_default data "agent" (VStr ""))
                (dict_get_default data "model" (VStr ""))]))
          st' (fragments (delivered_before esm n)) /\
        r = joined (collected_response st')
  end.
Proof.
  unfold collect_streaming_response. intros H.
  destruct (event_source_manager self) as [esm|]; [|inversion H; subst; eauto].
  destruct (data !! "message") as [message|] eqn:Hm; [|inversion H; subst; eauto 6].
  simpl in H.
  destruct (start_chat_stream esm _ _ _) as [stream_id|e] eqn:Hstart.
  2:{ inversion H; subst. split; [eauto|]. right; right. by exists message. }
  destruct (wait_loop _ _ _ _ _ _ _ _) as [[[exit n] st3]|] eqn:Hw; [|done].
  assert (r = joined (collected_response st3) /\ st' = st3 /\ info = Some (exit, n))
    as (-> & -> & ->).
  { unfold joined. destruct (str_join (collected_response st3)); by inversion H. }
  exists esm, message, stream_id.
  split; [done|]. split; [done|]. split; [done|]. split; [done|]. split; [|done].
  apply wait_loop_advances in Hw as [_ Hadv]. rewrite Nat.sub_0_r in Hadv.
  unfold delivered_before. rewrite fragments_app.
  eapply advances_trans; [apply deliver_advances|apply Hadv].
Qed.

(** The calls a run of [_handle_streaming_response] adds to the trace:
    none changes a stream, whatever is sent carries [data['message']], and
    without an [on_chunk] handler no call to [on_chunk] is among them. *)
Lemma quiet_effect_carries m e : is_network_activity e = false -> carries m e.
Proof. intros H sent. by destruct e. Qed.

Lemma handle_streaming_response_trace w self fuel data on_chunk on_complete on_error
    st r st' :
  _handle_streaming_response w self fuel data on_chunk on_complete on_error st
    = Some (r, st') ->
  exists tr',
    trace st' = trace st ++ tr' /\
    Forall (fun e => changes_stream e = false) tr' /\
    Forall (carries (data !! "message")) tr' /\
    (on_chunk = None -> on_chunk_args tr' = []).
Proof.
  unfold _handle_streaming_response. intros H.
  destruct (collect_streaming_response _ _ _ _ _ _ _ _) as [[[r0 st0] info]|] eqn:Hc;
    [|done].
  simpl in H. inversion H; subst r0 st0. clear H.
  apply collect_streaming_response_inv in Hc.
  destruct info as [[exit n]|].
  - destruct Hc as (esm & message & sid & _ & Hm & _ & _ & [_ (tr' & Htr & Hq & Hoc)] & _).
    simpl in Htr.
    exists (StartChatStream message (dict_get_default data "agent" (VStr ""))
              (dict_get_default data "model" (VStr "")) :: tr').
    split; [by rewrite Htr, <- app_assoc|].
    split; [constructor; [done|]; eapply Forall_impl; [exact Hq|]; by intros e [? ?]|].
    split.
    + constructor; [intros sent; simpl; congruence|].
      eapply Forall_impl; [exact Hq|]. intros e [_ ?]. by apply quiet_effect_carries.
    + intros ->. exact Hoc.
  - destruct Hc as [_ [->|[->|(message & Hm & ->)]]].
    + exists []. rewrite app_nil_r. by repeat split.
    + exists []. simpl. rewrite app_nil_r. by repeat split.
    + eexists [_]. simpl. split; [done|].
      split; [by repeat constructor|].
      split; [|done].
      constructor; [|constructor]. intros sent; simpl; congruence.
Qed.

(** ** C2 *)




(** ** The facade [send_message] *)

(** The payload [send_message] builds before it sends anything. *)
Lemma payload_message_lookup (message : string) (options : gmap string value) :
  dict_update {[ "message"%string := VStr message ]} options !! "message"
  = Some (default (VStr message) (options !! "message")).
Proof.
  unfold dict_update.
  destruct (options !! "message") as [m|] eqn:Hm; simpl.
  - by apply lookup_union_Some_l.
  - rewrite lookup_union_r by done. apply lookup_singleton_eq.
Qed.

(** What any run of [send_message] adds to the trace: nothing that changes
    a stream, nothing sent whose message differs from the payload's, and
    no call to [on_chunk], whichever handler the caller passed. *)
Lemma send_message_trace w self fuel message options streaming
    on_chunk on_complete on_error kwargs st r st' :
  send_message w self fuel message options streaming on_chunk on_complete on_error
    kwargs st = Some (r, st') ->
  exists tr',
    trace st' = trace st ++ tr' /\
    Forall (fun e => changes_stream e = false) tr' /\
    Forall (carries (dict_update {[ "message"%string := VStr message ]}
                       (default ∅ options) !! "message")) tr' /\
    on_chunk_args tr' = [].
Proof.
  unfold send_message. set (data := dict_update _ _). intros H.
  destruct (negb (truthy (dict_get (default ∅ options) "agent"))).
  { inversion H; subst. exists []. rewrite app_nil_r. by repeat split. }
  assert (forall (e : exn) (s : state) tr,
    trace s = trace st ++ tr ->
    Forall (fun e => changes_stream e = false) tr ->
    Forall (carries (data !! "message")) tr ->
    on_chunk_args tr = [] ->
    (if (isinstance_Exception e && has_logger (http_client self))%bool
     then Some (Raise e,
                (emit (LoggerError ("Chat request failed for message: "
                                    ++ String.substring 0 50 message ++ "...")) s).2)
     else Some (Raise e, s)) = Some (r, st') ->
    exists tr', trace st' = trace st ++ tr' /\
      Forall (fun e => changes_stream e = false) tr' /\
      Forall (carries (data !! "message")) tr' /\ on_chunk_args tr' = []) as Hlog.
  { intros e s tr Htr Hc Hm Ho Heq.
    destruct (isinstance_Exception e && has_logger (http_client self))%bool;
      inversion Heq; subst.
    - exists (tr ++ [LoggerError ("Chat request failed for message: "
                                  ++ String.substring 0 50 message ++ "...")]).
      simpl. rewrite Htr, <- app_assoc. split; [done|].
      split; [apply Forall_app; split; [done|by repeat constructor]|].
      split; [apply Forall_app; split; [done|]; constructor; [by intros s0|constructor]|].
      unfold on_chunk_args in *. by rewrite omap_app, Ho.
    - by exists tr. }
  destruct (streaming && bool_decide (is_Some (event_source_manager self))
            && is_feature_enabled w "streaming_responses")%bool.
  - unfold call_handle_streaming_response in H. destruct kwargs as [|name kwargs].
    + destruct (_handle_streaming_response _ _ _ _ _ _ _ _) as [[r0 s0]|] eqn:Hh; [|done].
      apply handle_streaming_response_trace in Hh as (tr & Htr & Hc & Hm & Ho).
      specialize (Ho eq_refl).
      destruct r0 as [v|e]; [inversion H; subst; by exists tr|].
      by eapply Hlog.
    + eapply (Hlog _ _ []); [by rewrite app_nil_r|done|done|done|exact H].
  - assert (trace (emit (HttpPost (CHAT w) data) st).2 = trace st ++ [HttpPost (CHAT w) data])
      as Htr by done.
    assert (Forall (carries (data !! "message")) [HttpPost (CHAT w) data]) as Hm.
    { constructor; [|constructor]. intros sent; simpl; congruence. }
    destruct (post (http_client self) (CHAT w) data) as [v|e].
    + inversion H; subst. exists [HttpPost (CHAT w) data].
      split; [done|]. split; [by repeat constructor|]. by split.
    + eapply Hlog; [exact Htr| |exact Hm| |exact H]; by repeat constructor.
Qed.

(** When the streaming branch is not taken and the agent is usable, the
    call goes through: its first act is the POST of the payload to the
    chat endpoint. *)
Lemma plain_send_posts w self fuel message options streaming
    on_chunk on_complete on_error kwargs st :
  truthy (dict_get (default ∅ options) "agent") = true ->
  (streaming && bool_decide (is_Some (event_source_manager self))
   && is_feature_enabled w "streaming_responses")%bool = false ->
  exists r st' tr',
    send_message w self fuel message options streaming on_chunk on_complete on_error
      kwargs st = Some (r, st') /\
    trace st' = trace st ++
      HttpPost (CHAT w)
        (dict_update {[ "message"%string := VStr message ]} (default ∅ options))
      :: tr'.
Proof.
  intros Ha Hb. unfold send_message. rewrite Ha, Hb. simpl.
  destruct (post (http_client self) (CHAT w) _) as [v|e].
  - do 2 eexists. exists []. by split.
  - destruct (isinstance_Exception e && has_logger (http_client self))%bool.
    + do 2 eexists. eexists [_]. split; [done|]. simpl. by rewrite <- app_assoc.
    + do 2 eexists. exists []. by split.
Qed.

(** ** C1 *)

(** C1. When [options] is absent, or has no ['agent'] entry, or has one
    that is empty (false in a boolean test), [send_message] raises
    [ValidationError] and the state after the call is the state before it:
    the trace has no new entry, so nothing was asked of the HTTP client or
    of the event source manager. *)
Theorem send_message_requires_agent w self fuel message options streaming
    on_chunk on_complete on_error kwargs st :
  (options = None \/
   exists o, options = Some o /\
     (o !! "agent" = None \/ exists v, o !! "agent" = Some v /\ truthy v = false)) ->
  send_message w self fuel message options streaming on_chunk on_complete on_error
    kwargs st
  = Some (Raise (ValidationError "agent is required" "agent"), st).
Proof.
  intros H. unfold send_message.
  assert (truthy (dict_get (default ∅ options) "agent") = false) as ->; [|done].
  destruct H as [->|(o & -> & [Ho|(v & Ho & Hv)])]; unfold dict_get; simpl.
  - by rewrite lookup_empty.
  - by rewrite Ho.
  - by rewrite Ho.
Qed.

Lemma send_message_requires_agent_witness :
  send_message world0 service_hi 400 "Hello"
    (Some {[ "agent"%string := VStr ""; "model"%string := VStr "m" ]}) true
    (Some quiet) None None [] initial_state
  = Some (Raise (ValidationError "agent is required" "agent"), initial_state).
Proof.
  apply send_message_requires_agent.
  right. eexists. split; [reflexivity|].
  right. exists (VStr ""). split; [vm_compute; reflexivity|reflexivity].
Defined.

(** ** C3 *)

(** C3. The facade never hands a fragment to the caller's [on_chunk]:
    with streaming on and the events [{response:"Hi"}],
    [{response:" there"}] delivered, [send_message] returns ["Hi there"]
    and the trace holds no call to [on_chunk], while
    [_handle_streaming_response] given the same handler calls it with
    ["Hi"] and [" there"]. *)
Theorem facade_drops_on_chunk :
  exists st' st'',
    send_message world0 service_hi 400 "Hello" (Some agent_general) true
      (Some quiet) None None [] initial_state
      = Some (Return (VStr "Hi there"), st') /\
    on_chunk_args (trace st') = [] /\
    collected_response st' = [VStr "Hi"; VStr " there"] /\
    _handle_streaming_response world0 service_hi 400
      (dict_update {[ "message"%string := VStr "Hello" ]} agent_general)
      (Some quiet) None None initial_state
      = Some (Return (VStr "Hi there"), st'') /\
    on_chunk_args (trace st'') = [VStr "Hi"; VStr " there"].
Proof.
  do 2 eexists. repeat split; vm_compute; reflexivity.
Qed.

(** ** C10 *)

(** C10. When [options] has a ['message'] entry, the payload carries
    [options['message']] and not the [message] argument: every request a
    call makes, HTTP or stream, carries it, and with a usable agent the
    plain send goes through and its first act is the POST of that payload
    to the chat endpoint. *)
Theorem options_message_overrides_argument w self fuel message o m' streaming
    on_chunk on_complete on_error kwargs st :
  o !! "message" = Some m' ->
  dict_update {[ "message"%string := VStr message ]} o !! "message" = Some m' /\
  (forall r st',
     send_message w self fuel message (Some o) streaming on_chunk on_complete on_error
       kwargs st = Some (r, st') ->
     exists tr', trace st' = trace st ++ tr' /\ Forall (carries (Some m')) tr') /\
  (truthy (dict_get o "agent") = true ->
   exists r st' tr',
     send_message w self fuel message (Some o) false on_chunk on_complete on_error
       kwargs st = Some (r, st') /\
     trace st' = trace st ++
       HttpPost (CHAT w) (dict_update {[ "message"%string := VStr message ]} o) :: tr').
Proof.
  intros Hm.
  assert (dict_update {[ "message"%string := VStr message ]} o !! "message" = Some m')
    as Hp by (by rewrite payload_message_lookup, Hm).
  split; [done|]. split.
  - intros r st' H.
    apply send_message_trace in H as (tr' & Htr & _ & Hc & _). simpl in Hc.
    rewrite Hp in Hc. by exists tr'.
  - intros Ha. by apply (plain_send_posts w self fuel message (Some o)).
Qed.

Lemma options_message_overrides_argument_witness :
  exists r st' tr',
    send_message world0 service_plain 400 "Hello" (Some options_bye)
      false None None None [] initial_state = Some (r, st') /\
    trace st' = trace initial_state ++
      HttpPost (CHAT world0)
        (dict_update {[ "message"%string := VStr "Hello" ]} options_bye) :: tr' /\
    dict_update {[ "message"%string := VStr "Hello" ]} options_bye !! "message"
      = Some (VStr "Bye").
Proof.
  assert (options_bye !! "message" = Some (VStr "Bye")) as Hm by (vm_compute; reflexivity).
  assert (truthy (dict_get options_bye "agent") = true) as Ha by (vm_compute; reflexivity).
  destruct (options_message_overrides_argument world0 service_plain 400 "Hello"
              options_bye (VStr "Bye") false None None None [] initial_state Hm)
    as (Hp & _ & Hpost).
  destruct (Hpost Ha) as (r & st' & tr' & Hrun & Htr).
  exists r, st', tr'. split; [exact Hrun|]. split; [exact Htr|exact Hp].
Defined.

(** ** The waiting loop and the clock *)

Lemma clock_ticks_lower_bound w delta n :
  clock_ticks w delta ->
  time_time w 0 + poll_interval * Z.of_nat n <= time_time w (S n).
Proof.
  intros (H0 & Hs & _). induction n as [|n IH]; [lia|].
  specialize (Hs n). unfold poll_interval in *. lia.
Qed.

(** With such a clock 301 turns are enough, and the loop is left less
    than [timeout + delta] after the start. *)
Lemma wait_loop_terminates w esm cb sid delta :
  clock_ticks w delta ->
  forall fuel n st,
    (301 <= fuel + n)%nat ->
    (n <> 0%nat -> time_time w n - time_time w 0 < timeout) ->
    exists exit k st',
      wait_loop w esm cb sid (time_time w 0) fuel n st = Some (exit, k, st') /\
      time_time w (S k) - time_time w 0 < timeout + delta.
Proof.
  intros Hclk. pose proof Hclk as (H0 & Hs & Hd).
  assert (0 <= delta) as Hdelta by (specialize (Hd 0%nat); lia).
  induction fuel as [|fuel IH]; intros n st Hfuel Hprev.
  - exfalso. destruct n as [|n]; [lia|].
    pose proof (clock_ticks_lower_bound w delta n Hclk) as Hlow.
    specialize (Hprev ltac:(lia)). unfold timeout, poll_interval in *. lia.
  - simpl. destruct (Z.ltb_spec (time_time w (S n) - time_time w 0) timeout) as [Hlt|Hge].
    + destruct (is_terminal_status (get_stream_status esm n sid)).
      * do 3 eexists. split; [reflexivity|lia].
      * apply IH; [lia|]. by intros _.
    + do 3 eexists. split; [reflexivity|].
      specialize (Hd n). destruct n as [|n]; [unfold timeout; lia|].
      specialize (Hprev ltac:(lia)). lia.
Qed.

(** Leaving the loop by timeout means what it says: the clock has passed
    the limit and no status seen so far was terminal. *)
Lemma wait_loop_timed_out w esm cb sid t0 fuel :
  forall n0 st n st',
    wait_loop w esm cb sid t0 fuel n0 st = Some (TimedOut, n, st') ->
    timeout <= time_time w (S n) - t0 /\
    forall i, (n0 <= i < n)%nat ->
      is_terminal_status (get_stream_status esm i sid) = false.
Proof.
  induction fuel as [|fuel IH]; intros n0 st n st' H; simpl in H; [done|].
  destruct (Z.ltb_spec (time_time w (S n0) - t0) timeout) as [Hlt|Hge].
  - destruct (is_terminal_status (get_stream_status esm n0 sid)) eqn:Hterm; [done|].
    apply IH in H as [Hlim Hall]. split; [done|].
    intros i Hi. destruct (decide (i = n0)) as [->|Hne]; [done|]. apply Hall. lia.
  - inversion H; subst. split; [done|]. intros i Hi. lia.
Qed.

(** ** C4 *)

(** C4, as stated, fails: the caller cannot choose the timeout. A
    [timeout] keyword given to [send_message] is refused with [TypeError],
    and with a stream that stays open the collect path waits its own 30
    seconds: on a clock where one turn of the loop takes 100 ms it is left
    at 30000 ms, far beyond a wished-for [T] of 1000 ms plus one turn. *)
Lemma caller_timeout_is_not_honoured :
  send_message world0 service_never 400 "Hello" (Some agent_general) true
    None None None ["timeout"%string] initial_state
  = Some (Raise (TypeError
       "_handle_streaming_response() got an unexpected keyword argument timeout"),
     mkState [] [LoggerError "Chat request failed for message: Hello..."]) /\
  ~ waits_at_most world0 service_never {[ "message"%string := VStr "Hello" ]}
      1000 poll_interval.
Proof.
  split; [vm_compute; reflexivity|].
  intros H.
  destruct (collect_streaming_response world0 service_never 400
              {[ "message"%string := VStr "Hello" ]} None None None initial_state)
    as [[[r st'] [[exit n]|]]|] eqn:Hrun; try (vm_compute in Hrun; discriminate).
  specialize (H _ _ _ _ _ _ _ _ _ Hrun).
  vm_compute in Hrun. inversion Hrun; subst. vm_compute in H. discriminate.
Qed.

(** C4, amended: the timeout is the constant 30 seconds of the method.
    On a clock that each sleep advances by at least the polling interval
    and on which one turn of the loop takes at most [delta], the collect
    path terminates (301 turns of fuel suffice) and leaves its loop less
    than [timeout + delta] after the start, whatever the statuses and
    events the manager produces. *)
Theorem collect_returns_within_fixed_timeout w self fuel data
    on_chunk on_complete on_error st delta :
  clock_ticks w delta ->
  (301 <= fuel)%nat ->
  exists r st' info,
    collect_streaming_response w self fuel data on_chunk on_complete on_error st
      = Some (r, st', info) /\
    _handle_streaming_response w self fuel data on_chunk on_complete on_error st
      = Some (r, st') /\
    forall exit n, info = Some (exit, n) ->
      time_time w (S n) - time_time w 0 < timeout + delta.
Proof.
  intros Hclk Hfuel.
  assert (forall r st' info,
    collect_streaming_response w self fuel data on_chunk on_complete on_error st
      = Some (r, st', info) ->
    _handle_streaming_response w self fuel data on_chunk on_complete on_error st
      = Some (r, st')) as Hproj.
  { intros r st' info Hc. unfold _handle_streaming_response. by rewrite Hc. }
  destruct (collect_streaming_response w self fuel data on_chunk on_complete on_error st)
    as [[[r st'] info]|] eqn:Hrun.
  - exists r, st', info. split; [done|]. split; [by eapply Hproj|].
    intros exit n ->.
    apply collect_streaming_response_inv in Hrun
      as (esm & message & sid & _ & _ & _ & Hw & _ & _).
    edestruct (wait_loop_terminates w esm (default_chunk_handler on_chunk on_error)
                 sid delta Hclk fuel 0%nat) as (exit' & k & st3 & Hw' & Hbound);
      [lia|done|].
    rewrite Hw in Hw'. by inversion Hw'; subst.
  - exfalso. unfold collect_streaming_response in Hrun.
    destruct (event_source_manager self) as [esm|]; [|done].
    destruct (data !! "message") as [message|]; [|done]. simpl in Hrun.
    destruct (start_chat_stream esm _ _ _) as [sid|e]; [|done].
    edestruct (wait_loop_terminates w esm (default_chunk_handler on_chunk on_error)
                 sid delta Hclk fuel 0%nat) as (exit' & k & st3 & Hw' & _);
      [lia|done|].
    rewrite Hw' in Hrun. by destruct (str_join (collected_response st3)).
Qed.

Lemma collect_returns_within_fixed_timeout_witness :
  exists r st' info,
    collect_streaming_response world0 service_never 301
      {[ "message"%string := VStr "Hello" ]} None None None initial_state
      = Some (r, st', info) /\
    _handle_streaming_response world0 service_never 301
      {[ "message"%string := VStr "Hello" ]} None None None initial_state
      = Some (r, st') /\
    forall exit n, info = Some (exit, n) ->
      time_time world0 (S n) - time_time world0 0 < timeout + 100.
Proof.
  apply (collect_returns_within_fixed_timeout world0 service_never 301
           {[ "message"%string := VStr "Hello" ]} None None None initial_state 100).
  - unfold clock_ticks, world0, poll_interval; simpl. repeat split; intros; lia.
  - lia.
Defined.

(** ** C5 *)

(** C5. When the waiting loop is left by timeout (the clock has passed
    the limit and no status seen was terminal), the method returns the
    join of the fragments of the events delivered so far, and the calls it
    made are the opening of the stream, status queries and callbacks: no
    stop, pause or resume is among them. *)
Theorem timeout_returns_partial_text_untouched w self fuel data
    on_chunk on_complete on_error st r st' n :
  collect_streaming_response w self fuel data on_chunk on_complete on_error st
    = Some (r, st', Some (TimedOut, n)) ->
  exists esm message stream_id tr',
    event_source_manager self = Some esm /\
    data !! "message" = Some message /\
    start_chat_stream esm message (dict_get_default data "agent" (VStr ""))
      (dict_get_default data "model" (VStr "")) = Return stream_id /\
    _handle_streaming_response w self fuel data on_chunk on_complete on_error st
      = Some (r, st') /\
    r = joined (fragments (delivered_before esm n)) /\
    trace st' = trace st ++ tr' /\
    Forall (fun e => changes_stream e = false) tr' /\
    timeout <= time_time w (S n) - time_time w 0 /\
    forall i, (i < n)%nat ->
      is_terminal_status (get_stream_status esm i stream_id) = false.
Proof.
  intros Hrun.
  assert (_handle_streaming_response w self fuel data on_chunk on_complete on_error st
          = Some (r, st')) as Hh
    by (unfold _handle_streaming_response; by rewrite Hrun).
  pose proof Hh as Htrace.
  apply handle_streaming_response_trace in Htrace as (tr' & Htr & Hquiet & _ & _).
  apply collect_streaming_response_inv in Hrun
    as (esm & message & sid & Hesm & Hm & Hstart & Hw & [Hcol _] & Hr).
  simpl in Hcol.
  exists esm, message, sid, tr'. rewrite <- Hcol.
  do 7 (split; [done|]).
  apply wait_loop_timed_out in Hw as [Hlim Hall]. split; [done|].
  intros i Hi. apply Hall. lia.
Qed.

Lemma timeout_returns_partial_text_untouched_witness :
  exists st',
    collect_streaming_response world0 service_never 400 data_hello
      (Some quiet) None None initial_state
      = Some (Return (VStr "Hi"), st', Some (TimedOut, 299%nat)) /\
    exists esm message stream_id tr',
      event_source_manager service_never = Some esm /\
      data_hello !! "message" = Some message /\
      start_chat_stream esm message (dict_get_default data_hello "agent" (VStr ""))
        (dict_get_default data_hello "model" (VStr "")) = Return stream_id /\
      _handle_streaming_response world0 service_never 400 data_hello
        (Some quiet) None None initial_state
        = Some (Return (VStr "Hi"), st') /\
      Return (VStr "Hi") = joined (fragments (delivered_before esm 299)) /\
      trace st' = trace initial_state ++ tr' /\
      Forall (fun e => changes_stream e = false) tr' /\
      timeout <= time_time world0 300 - time_time world0 0 /\
      forall i, (i < 299)%nat ->
        is_terminal_status (get_stream_status esm i stream_id) = false.
Proof.
  assert (forall (P : Prop) (Q : Prop), P -> (P -> Q) -> P /\ Q) as Hcut by tauto.
  eexists. apply Hcut; [vm_compute; reflexivity|].
  intros Hrun.
  apply (timeout_returns_partial_text_untouched world0 service_never 400
           data_hello (Some quiet) None None initial_state _ _ _ Hrun).
Defined.

(** ** C6 *)

(** C6, as stated, fails for [send_message]: asked to stream without an
    event source manager, it raises nothing and posts the payload to the
    chat endpoint like a plain send. *)
Lemma streaming_send_without_manager_posts :
  send_message world0 service_plain 400 "Hello" (Some agent_general) true
    None None None [] initial_state
  = Some (Return (VDict {[ "response"%string := VStr "ok" ]}),
          mkState [] [HttpPost "/chat"
                        (dict_update {[ "message"%string := VStr "Hello" ]}
                           agent_general)]).
Proof. vm_compute. reflexivity. Qed.

(** C6, amended: without an event source manager,
    [send_streaming_message] raises before anything is sent (the
    [StreamingResponseError] of the method once the feature gate lets the
    call through), [_send_streaming_message] and
    [_handle_streaming_response] raise [StreamingResponseError] with the
    state untouched, and [send_message] ignores its [streaming] flag: it
    behaves as the plain send, whose first act with a usable agent is the
    POST to the chat endpoint. *)
Theorem no_manager_behaviour w self :
  event_source_manager self = None ->
  (forall message agent model on_chunk on_complete on_error st,
     exists e,
       send_streaming_message w self message agent model on_chunk on_complete on_error st
         = (Raise e, st) /\
       (require_feature w "streaming_responses" = None ->
        e = StreamingResponseError
              "Streaming not available - EventSourceManager not initialized")) /\
  (forall data on_chunk on_complete on_error st,
     _send_streaming_message self data on_chunk on_complete on_error st
       = (Raise (StreamingResponseError "EventSourceManager not available"), st)) /\
  (forall fuel data on_chunk on_complete on_error st,
     _handle_streaming_response w self fuel data on_chunk on_complete on_error st
       = Some (Raise (StreamingResponseError "EventSourceManager not available"), st)) /\
  (forall fuel message options on_chunk on_complete on_error kwargs st,
     send_message w self fuel message options true on_chunk on_complete on_error
       kwargs st
     = send_message w self fuel message options false on_chunk on_complete on_error
         kwargs st) /\
  (forall fuel message options on_chunk on_complete on_error kwargs st,
     truthy (dict_get (default ∅ options) "agent") = true ->
     exists r st' tr',
       send_message w self fuel message options true on_chunk on_complete on_error
         kwargs st = Some (r, st') /\
       trace st' = trace st ++
         HttpPost (CHAT w)
           (dict_update {[ "message"%string := VStr message ]} (default ∅ options))
         :: tr').
Proof.
  intros Hnone. repeat split.
  - intros. unfold send_streaming_message. rewrite Hnone.
    destruct (require_feature w "streaming_responses") as [e|]; eexists; by split.
  - intros. unfold _send_streaming_message. by rewrite Hnone.
  - intros. unfold _handle_streaming_response, collect_streaming_response.
    by rewrite Hnone.
  - intros. unfold send_message. by rewrite Hnone.
  - intros fuel message options on_chunk on_complete on_error kwargs st Ha.
    apply plain_send_posts; [done|]. by rewrite Hnone.
Qed.

Lemma no_manager_behaviour_witness :
  exists e,
    send_streaming_message world0 service_plain (VStr "Hello") (VStr "general") VNone
      (Some quiet) None None initial_state = (Raise e, initial_state) /\
    (require_feature world0 "streaming_responses" = None ->
     e = StreamingResponseError
           "Streaming not available - EventSourceManager not initialized").
Proof.
  apply (no_manager_behaviour world0 service_plain). reflexivity.
Defined.

(** ** C7 *)

(** C7, as stated, fails for the chunk handler: it knows no generic text
    field. For the payload [{text: "Hi"}] the first key present in the
    order response, message, text holds ["Hi"], yet the handler reads the
    empty text and treats the event as a heartbeat. *)
Lemma chunk_handler_ignores_text_field :
  first_present ["response"; "message"; "text"]%string {[ "text"%string := VStr "Hi" ]}
    = Some (VStr "Hi") /\
  chunk_text_of (mkEvent (Some (VDict {[ "text"%string := VStr "Hi" ]}))) = VStr "" /\
  default_chunk_handler (Some quiet) None
    (mkEvent (Some (VDict {[ "text"%string := VStr "Hi" ]}))) initial_state
    = (Return tt, initial_state).
Proof. repeat split; vm_compute; reflexivity. Qed.

Lemma extract_by_keys_first_present str_of_object keys d :
  extract_by_keys str_of_object keys d = py_str str_of_object <$> first_present keys d.
Proof.
  induction keys as [|key keys IH]; simpl; [done|].
  by destruct (d !! key).
Qed.

(** C7, amended: the chunk handler reads the value of ['response'] when
    that key is present, else the value of ['message'] when that one is,
    else the empty text; no other key is consulted.
    [_extract_response_text] is the function with the longer order
    response, message, text, content, answer: on a mapping it returns
    [str] of the value of the first of these keys present, and the JSON
    dump of the mapping when none is. In both, a later key is ignored
    whenever an earlier one is present. *)
Theorem extraction_priority :
  (forall d,
     chunk_text_of (mkEvent (Some (VDict d)))
     = default (VStr "") (first_present ["response"; "message"]%string d)) /\
  (forall str_of_object json_dumps_indent2 d,
     _extract_response_text str_of_object json_dumps_indent2 (VDict d)
     = match first_present
               ["response"; "message"; "text"; "content"; "answer"]%string d with
       | Some v => py_str str_of_object v
       | None => json_dumps_indent2 (VDict d)
       end).
Proof.
  split.
  - intros d. unfold chunk_text_of; simpl.
    destruct (d !! "response"); [done|]. by destruct (d !! "message").
  - intros str_of_object json_dumps_indent2 d. unfold _extract_response_text.
    rewrite extract_by_keys_first_present. unfold response_keys.
    by destruct (first_present _ d).
Qed.

(** ** C8 *)

Lemma falsy_chunk_is_noop on_chunk on_error ev st :
  truthy (chunk_text_of ev) = false ->
  default_chunk_handler on_chunk on_error ev st = (Return tt, st).
Proof.
  intros H. unfold default_chunk_handler, try_except_Exception. by rewrite H.
Qed.

(** C8. An event whose data has neither a ['response'] nor a ['message']
    field, or whose extracted text is empty, leaves the state as it was:
    nothing is appended to the accumulator and the trace gets no call to
    [on_chunk] (nor any other call). *)
Theorem heartbeat_event_is_noop on_chunk on_error ev st :
  (has_field ev "response" = false /\ has_field ev "message" = false) \/
  chunk_text_of ev = VStr "" ->
  default_chunk_handler on_chunk on_error ev st = (Return tt, st).
Proof.
  intros H. apply falsy_chunk_is_noop.
  destruct H as [[Hr Hm]| ->]; [|done].
  unfold has_field, chunk_text_of, dict_contains in *.
  destruct (ev_data ev) as [[| | | | |d]|]; try done.
  destruct (d !! "response"); [done|]. by destruct (d !! "message").
Qed.

Lemma heartbeat_event_is_noop_witness :
  default_chunk_handler (Some (failing (RaisedException "boom"))) None
    (ev_of [("tokens_per_second"%string, VInt 12)]) initial_state
  = (Return tt, initial_state) /\
  default_chunk_handler (Some (failing (RaisedException "boom"))) None
    (ev_of [("response"%string, VStr ""); ("message"%string, VStr "x")]) initial_state
  = (Return tt, initial_state).
Proof.
  split.
  - apply heartbeat_event_is_noop. left. split; vm_compute; reflexivity.
  - apply heartbeat_event_is_noop. right. vm_compute. reflexivity.
Defined.

(** ** C9 *)

(** C9, as stated, fails: the handler catches instances of [Exception]
    only. What [on_chunk] raises outside that class (a
    [KeyboardInterrupt], say) leaves the chunk handler and [on_error] is
    not called; and an exception raised by [on_error] itself while it
    handles a caught one leaves the chunk handler too. *)
Lemma chunk_handler_lets_exceptions_out :
  default_chunk_handler (Some (failing (RaisedBaseException "KeyboardInterrupt")))
    (Some quiet) (ev_of [("response"%string, VStr "Hi")]) initial_state
  = (Raise (RaisedBaseException "KeyboardInterrupt"),
     mkState [VStr "Hi"] [OnChunk (VStr "Hi")]) /\
  default_chunk_handler (Some (failing (RaisedException "boom")))
    (Some (failing (RaisedException "bang")))
    (ev_of [("response"%string, VStr "Hi")]) initial_state
  = (Raise (RaisedException "bang"),
     mkState [VStr "Hi"] [OnChunk (VStr "Hi"); OnError (RaisedException "boom")]).
Proof. split; vm_compute; reflexivity. Qed.

(** C9, amended. When [on_chunk], called with the fragment of an event,
    raises an instance of [Exception], the chunk handler catches it: with
    no [on_error] registered the handler returns normally; with
    [on_error] registered, that handler is called with the very
    exception, and the chunk handler ends the way that call ends,
    normally when [on_error] returns and with what [on_error] raises
    otherwise. When [on_chunk] raises something that is not an instance
    of [Exception], it leaves the chunk handler and [on_error] is not
    called. In every case the fragment stays appended. *)
Theorem on_chunk_exception_handling f on_error ev st e :
  truthy (chunk_text_of ev) = true ->
  f (trace st) (chunk_text_of ev) = Some e ->
  let st1 := mkState (collected_response st ++ [chunk_text_of ev])
                     (trace st ++ [OnChunk (chunk_text_of ev)]) in
  default_chunk_handler (Some f) on_error ev st
  = if isinstance_Exception e then
      match on_error with
      | None => (Return tt, st1)
      | Some g =>
          (match g (trace st1) e with None => Return tt | Some e' => Raise e' end,
           mkState (collected_response st1) (trace st1 ++ [OnError e]))
      end
    else (Raise e, st1).
Proof.
  intros Ht Hf st1.
  unfold default_chunk_handler, try_except_Exception. rewrite Ht.
  unfold mbind, M_bind, collected_response_append, invoke_if_set, invoke. simpl.
  rewrite Hf. destruct (isinstance_Exception e); [|done].
  destruct on_error as [g|]; [|done].
  subst st1; simpl. by destruct (g _ e).
Qed.

Lemma on_chunk_exception_handling_witness :
  default_chunk_handler (Some (failing (RaisedException "boom"))) (Some quiet)
    (ev_of [("response"%string, VStr "Hi")]) initial_state
  = (Return tt, mkState [VStr "Hi"] [OnChunk (VStr "Hi"); OnError (RaisedException "boom")]).
Proof.
  apply (on_chunk_exception_handling (failing (RaisedException "boom")) (Some quiet)
           (ev_of [("response"%string, VStr "Hi")]) initial_state
           (RaisedException "boom")); reflexivity.
Defined.

(** * Further properties of the chat service *)

(** ** [handle_event], the callback of [_send_streaming_message] *)

(** X1. An event whose status is ['complete'] makes [handle_event] call
    [on_complete], when one is set, and never [on_chunk], whatever other
    fields the event carries: a response in the same event is not
    forwarded. [on_error] is called only when [on_complete] raises an
    instance of [Exception], and then with that exception; what
    [on_complete] raises outside that class leaves the callback. Without
    [on_complete] the event changes nothing. *)
Theorem handle_event_complete on_chunk on_complete on_error d st :
  str_equal (dict_get d "status") "complete" = true ->
  handle_event on_chunk on_complete on_error (mkEvent (Some (VDict d))) st
  = match on_complete with
    | None => (Return tt, st)
    | Some c =>
        let st1 := mkState (collected_response st) (trace st ++ [OnComplete]) in
        match c (trace st) tt with
        | None => (Return tt, st1)
        | Some e =>
            if isinstance_Exception e then
              match on_error with
              | None => (Return tt, st1)
              | Some g =>
                  (match g (trace st1) e with None => Return tt | Some e' => Raise e' end,
                   mkState (collected_response st1) (trace st1 ++ [OnError e]))
              end
            else (Raise e, st1)
        end
    end.
Proof.
  intros Hs. unfold handle_event, try_except_Exception. simpl. rewrite Hs.
  destruct on_complete as [c|]; simpl; [|done].
  unfold invoke. destruct (c (trace st) tt) as [e|]; simpl; [|done].
  destruct (isinstance_Exception e); [|done].
  destruct on_error as [g|]; simpl; [|done].
  unfold invoke. simpl. by destruct (g _ e).
Qed.

Lemma handle_event_complete_witness :
  handle_event (Some quiet) (Some quiet) None
    (ev_of [("status"%string, VStr "complete"); ("response"%string, VStr "late")])
    initial_state
  = (Return tt, mkState [] [OnComplete]) /\
  handle_event (Some quiet) (Some (failing (RaisedException "boom"))) (Some quiet)
    (ev_of [("status"%string, VStr "complete"); ("response"%string, VStr "late")])
    initial_state
  = (Return tt, mkState [] [OnComplete; OnError (RaisedException "boom")]).
Proof.
  assert (str_equal
            (dict_get (list_to_map [("status"%string, VStr "complete");
                                    ("response"%string, VStr "late")]) "status")
            "complete" = true) as Hs by (vm_compute; reflexivity).
  split.
  - pose proof (handle_event_complete (Some quiet) (Some quiet) None
                  (list_to_map [("status"%string, VStr "complete");
                                ("response"%string, VStr "late")]) initial_state Hs) as H.
    vm_compute in H. vm_compute. exact H.
  - pose proof (handle_event_complete (Some quiet)
                  (Some (failing (RaisedException "boom"))) (Some quiet)
                  (list_to_map [("status"%string, VStr "complete");
                                ("response"%string, VStr "late")]) initial_state Hs) as H.
    vm_compute in H. vm_compute. exact H.
Defined.

(** X2. An event whose status is ['error'] calls [on_error] with
    [Exception(msg)], where [msg] is the event's ['error'] field and
    ['Stream error'] when it has none; [on_chunk] and [on_complete] are
    not called. *)
Theorem handle_event_error on_chunk on_complete g d st :
  str_equal (dict_get d "status") "error" = true ->
  g (trace st) (PyException (dict_get_default d "error" (VStr "Stream error"))) = None ->
  handle_event on_chunk on_complete (Some g) (mkEvent (Some (VDict d))) st
  = (Return tt,
     mkState (collected_response st)
       (trace st ++ [OnError (PyException (dict_get_default d "error" (VStr "Stream error")))])).
Proof.
  intros Hs Hg. unfold handle_event, try_except_Exception. simpl.
  assert (str_equal (dict_get d "status") "complete" = false) as ->.
  { unfold str_equal in *. destruct (dict_get d "status"); try done.
    apply String.eqb_eq in Hs. by subst. }
  rewrite Hs. simpl. unfold invoke. by rewrite Hg.
Qed.

Lemma handle_event_error_witness :
  handle_event (Some quiet) (Some quiet) (Some quiet)
    (ev_of [("status"%string, VStr "error")]) initial_state
  = (Return tt, mkState [] [OnError (PyException (VStr "Stream error"))]).
Proof.
  assert (str_equal (dict_get (list_to_map [("status"%string, VStr "error")]) "status")
            "error" = true) as Hs by (vm_compute; reflexivity).
  pose proof (handle_event_error (Some quiet) (Some quiet) quiet
                (list_to_map [("status"%string, VStr "error")]) initial_state
                Hs eq_refl) as H.
  vm_compute in H. vm_compute. exact H.
Defined.

(** X3. An event that is neither complete nor in error and has a
    ['response'] field calls [on_chunk] with the dictionary
    [{message: response, tokens_per_second: n}], [n] being the event's
    field or [0]. The response is forwarded whatever its value, the empty
    string included, where [default_chunk_handler] keeps silent. *)
Theorem handle_event_forwards_response f on_complete on_error d response st :
  str_equal (dict_get d "status") "complete" = false ->
  str_equal (dict_get d "status") "error" = false ->
  d !! "response" = Some response ->
  let chunk_data : gmap string value :=
    <[ "message"%string := response ]>
      {[ "tokens_per_second"%string := dict_get_default d "tokens_per_second" (VInt 0) ]} in
  f (trace st) (VDict chunk_data) = None ->
  handle_event (Some f) on_complete on_error (mkEvent (Some (VDict d))) st
  = (Return tt, mkState (collected_response st) (trace st ++ [OnChunk (VDict chunk_data)]))
  /\ (truthy response = false ->
      default_chunk_handler (Some f) on_error (mkEvent (Some (VDict d))) st
      = (Return tt, st)).
Proof.
  intros Hc He Hr chunk_data Hf. split.
  - unfold handle_event, try_except_Exception. simpl. rewrite Hc, He, Hr. simpl.
    unfold invoke. fold chunk_data. by rewrite Hf.
  - intros Hfalse. apply falsy_chunk_is_noop. unfold chunk_text_of. simpl.
    by rewrite Hr.
Qed.

Lemma handle_event_forwards_response_witness :
  handle_event (Some quiet) None None (ev_of [("response"%string, VStr "")]) initial_state
  = (Return tt,
     mkState [] [OnChunk (VDict (<[ "message"%string := VStr "" ]>
                                   {[ "tokens_per_second"%string := VInt 0 ]}))])
  /\ (truthy (VStr "") = false ->
      default_chunk_handler (Some quiet) None (ev_of [("response"%string, VStr "")])
        initial_state
      = (Return tt, initial_state)).
Proof.
  assert (str_equal (dict_get (list_to_map [("response"%string, VStr "")]) "status")
            "complete" = false) as Hc by (vm_compute; reflexivity).
  assert (str_equal (dict_get (list_to_map [("response"%string, VStr "")]) "status")
            "error" = false) as He by (vm_compute; reflexivity).
  assert ((list_to_map [("response"%string, VStr "")] : gmap string value) !! "response"
          = Some (VStr "")) as Hr by (vm_compute; reflexivity).
  pose proof (handle_event_forwards_response quiet None None
                (list_to_map [("response"%string, VStr "")]) (VStr "") initial_state
                Hc He Hr eq_refl) as H.
  vm_compute in H. vm_compute. exact H.
Defined.

(** X4. The two event callbacks disagree on an event that carries its
    text under ['message'] only: [handle_event] calls nobody, while
    [default_chunk_handler] appends the text and hands it to [on_chunk]. *)
Theorem message_only_event f on_complete on_error d text st :
  d !! "status" = None ->
  d !! "response" = None ->
  d !! "message" = Some text ->
  truthy text = true ->
  f (trace st) text = None ->
  handle_event (Some f) on_complete on_error (mkEvent (Some (VDict d))) st
  = (Return tt, st) /\
  default_chunk_handler (Some f) on_error (mkEvent (Some (VDict d))) st
  = (Return tt, mkState (collected_response st ++ [text]) (trace st ++ [OnChunk text])).
Proof.
  intros Hs Hr Hm Ht Hf. split.
  - unfold handle_event, try_except_Exception, dict_get. simpl.
    by rewrite Hs, Hr.
  - unfold default_chunk_handler, try_except_Exception, chunk_text_of. simpl.
    rewrite Hr, Hm, Ht.
    unfold mbind, M_bind, collected_response_append, invoke_if_set, invoke. simpl.
    by rewrite Hf.
Qed.

Lemma message_only_event_witness :
  handle_event (Some quiet) None None (ev_of [("message"%string, VStr "Hi")]) initial_state
  = (Return tt, initial_state) /\
  default_chunk_handler (Some quiet) None (ev_of [("message"%string, VStr "Hi")])
    initial_state
  = (Return tt, mkState [VStr "Hi"] [OnChunk (VStr "Hi")]).
Proof.
  pose proof (message_only_event quiet None None
                (list_to_map [("message"%string, VStr "Hi")]) (VStr "Hi") initial_state)
    as H.
  vm_compute in H. vm_compute. apply H; reflexivity.
Defined.

(** X5. With no [on_error] registered, [handle_event] returns normally
    on every event, well formed or not, as long as what the other two
    handlers raise are instances of [Exception]. With [on_error]
    registered, an event without a [data] mapping is reported to it as an
    [AttributeError] and to nobody else. *)
Theorem handle_event_contains_failures on_chunk on_complete ev st :
  raises_only_Exception on_chunk ->
  raises_only_Exception on_complete ->
  (handle_event on_chunk on_complete None ev st).1 = Return tt /\
  forall g,
    (forall d, ev_data ev <> Some (VDict d)) ->
    exists msg,
      handle_event on_chunk on_complete (Some g) ev st
      = (match g (trace st) (AttributeError msg) with
         | None => Return tt
         | Some e => Raise e
         end,
         mkState (collected_response st) (trace st ++ [OnError (AttributeError msg)])).
Proof.
  intros Hoc Hcomp. split.
  - unfold handle_event, try_except_Exception.
    destruct (ev_data ev) as [[| | | | |d]|]; simpl; try done.
    destruct (str_equal (dict_get d "status") "complete").
    { destruct on_complete as [c|]; simpl; [|done]. unfold invoke.
      destruct (c (trace st) tt) as [e|] eqn:Hc; simpl; [|done].
      by rewrite (Hcomp c _ _ e eq_refl Hc). }
    destruct (str_equal (dict_get d "status") "error"); [done|].
    destruct (d !! "response") as [r|]; [|done].
    destruct on_chunk as [f|]; simpl; [|done]. unfold invoke.
    destruct (f (trace st) _) as [e|] eqn:Hf; simpl; [|done].
    by rewrite (Hoc f _ _ e eq_refl Hf).
  - intros g Hd. unfold handle_event, try_except_Exception.
    destruct (ev_data ev) as [[| | | | |d]|]; simpl;
      try (by exfalso; eapply Hd);
      solve [ exists "get"%string; unfold invoke; by destruct (g _ _)
            | exists "data"%string; unfold invoke; by destruct (g _ _) ].
Qed.

Lemma handle_event_contains_failures_witness :
  (handle_event (Some (failing (RaisedException "boom"))) None None
     (ev_of [("response"%string, VStr "Hi")]) initial_state).1 = Return tt.
Proof.
  apply (handle_event_contains_failures (Some (failing (RaisedException "boom"))) None
           (ev_of [("response"%string, VStr "Hi")]) initial_state).
  - intros g tr a e Hg He. inversion Hg; subst. inversion He. reflexivity.
  - intros g tr a e Hg. discriminate.
Defined.

(** ** [_send_streaming_message] and [send_streaming_message] *)

(** [handle_event] leaves the accumulator alone and adds only calls to
    the three handlers to the trace. *)
Lemma handle_event_callbacks_only on_chunk on_complete on_error ev st :
  exists tr',
    (handle_event on_chunk on_complete on_error ev st).2
      = mkState (collected_response st) (trace st ++ tr') /\
    Forall (fun e => is_callback e = true) tr'.
Proof.
  unfold handle_event, try_except_Exception, invoke_if_set, invoke, raise, mret, M_ret.
  destruct st as [col tr]. simpl.
  repeat match goal with
         | |- context [match ?x with _ => _ end] =>
             lazymatch x with
             | context [match _ with _ => _ end] => fail
             | _ => destruct x; simpl
             end
         end;
    first [ exists []; rewrite app_nil_r; split; [reflexivity|constructor]
          | eexists [_]; split; [reflexivity|by repeat constructor]
          | eexists [_; _]; split; [by rewrite <- app_assoc|by repeat constructor] ].
Qed.

Lemma deliver_handle_event_callbacks_only on_chunk on_complete on_error evs st :
  exists tr',
    deliver (handle_event on_chunk on_complete on_error) evs st
      = mkState (collected_response st) (trace st ++ tr') /\
    Forall (fun e => is_callback e = true) tr'.
Proof.
  revert st. induction evs as [|ev evs IH]; intros st; simpl.
  - exists []. rewrite app_nil_r. destruct st. by split.
  - destruct (handle_event_callbacks_only on_chunk on_complete on_error ev st)
      as (tr1 & H1 & Hc1).
    rewrite H1. destruct (IH (mkState (collected_response st) (trace st ++ tr1)))
      as (tr2 & H2 & Hc2).
    rewrite H2. simpl. exists (tr1 ++ tr2). rewrite app_assoc. split; [done|].
    by apply Forall_app.
Qed.

(** X6. Once the feature gate lets the call through and a manager is
    configured, [send_streaming_message] opens the stream with the
    message as given, the agent or [''] and the model or the module's
    default, and returns what [start_chat_stream] returns (or raises what
    it raises) without waiting: apart from that one call the trace only
    gets calls to the caller's handlers. No agent is required. The
    default model is chosen by comparing [system], which is
    [platform.machine().lower()], with ['darwin']: it is the unsloth
    model for every machine string other than ['darwin'], and the
    mlx-community model for that string alone. *)
Theorem send_streaming_message_opens_stream w self esm message agent model
    on_chunk on_complete on_error st :
  require_feature w "streaming_responses" = None ->
  event_source_manager self = Some esm ->
  (exists tr',
     send_streaming_message w self message agent model on_chunk on_complete on_error st
     = (start_chat_stream esm message (py_or agent (VStr "")) (py_or model (default_model w)),
        mkState (collected_response st)
          (trace st ++
             StartChatStream message (py_or agent (VStr "")) (py_or model (default_model w))
             :: tr')) /\
     Forall (fun e => is_callback e = true) tr') /\
  (system w <> "darwin"%string -> default_model w = VStr "unsloth/Qwen3-1.7B-bnb-4bit") /\
  (system w = "darwin"%string -> default_model w = VStr "mlx-community/Qwen3-1.7B-bnb-4bit").
Proof.
  intros Hgate Hesm. split.
  - unfold send_streaming_message. rewrite Hgate, Hesm.
    unfold _send_streaming_message. rewrite Hesm.
    fold (default_model w).
    rewrite lookup_insert_eq. unfold dict_get_default.
    rewrite lookup_insert_ne by done. rewrite lookup_insert_eq.
    do 2 rewrite lookup_insert_ne by done. rewrite lookup_singleton_eq. simpl.
    destruct (start_chat_stream esm message _ _) as [sid|e].
    + destruct (deliver_handle_event_callbacks_only on_chunk on_complete on_error
                  (events_on_start esm)
                  (mkState (collected_response st)
                     (trace st ++ [StartChatStream message (py_or agent (VStr ""))
                                     (py_or model (default_model w))])))
        as (tr' & Hd & Hcb).
      exists tr'. rewrite Hd. simpl. by rewrite <- app_assoc.
    + exists []. split; [done|constructor].
  - unfold default_model. split.
    + intros Hs. apply String.eqb_neq in Hs. by rewrite Hs.
    + intros ->. done.
Qed.

Lemma send_streaming_message_opens_stream_witness :
  exists tr',
    send_streaming_message world0 service_never (VStr "Hello") VNone VNone
      (Some quiet) None None initial_state
    = (Return (VStr "stream-1"),
       mkState []
         (StartChatStream (VStr "Hello") (VStr "") (VStr "unsloth/Qwen3-1.7B-bnb-4bit")
          :: tr')) /\
    Forall (fun e => is_callback e = true) tr'.
Proof.
  destruct (send_streaming_message_opens_stream world0 service_never esm_never
              (VStr "Hello") VNone VNone (Some quiet) None None initial_state
              eq_refl eq_refl) as [(tr' & Hrun & Hcb) _].
  exists tr'. split; [|exact Hcb]. rewrite Hrun. reflexivity.
Defined.

(** ** More on [send_message] *)

Lemma requests_app tr1 tr2 : requests (tr1 ++ tr2) = requests tr1 ++ requests tr2.
Proof. apply List.filter_app. Qed.

Lemma requests_quiet tr :
  Forall (fun e => changes_stream e = false /\ is_network_activity e = false) tr ->
  requests tr = [].
Proof.
  induction 1 as [|e tr [_ He] _ IH]; [done|]. unfold requests in *. simpl.
  by rewrite He.
Qed.

(** A run of [_handle_streaming_response] makes at most one request, the
    opening of the stream. *)
Lemma handle_streaming_response_requests w self fuel data on_chunk on_complete on_error
    st r st' :
  _handle_streaming_response w self fuel data on_chunk on_complete on_error st
    = Some (r, st') ->
  exists tr', trace st' = trace st ++ tr' /\ (length (requests tr') <= 1)%nat.
Proof.
  unfold _handle_streaming_response. intros H.
  destruct (collect_streaming_response _ _ _ _ _ _ _ _) as [[[r0 st0] info]|] eqn:Hc;
    [|done].
  simpl in H. inversion H; subst r0 st0. clear H.
  apply collect_streaming_response_inv in Hc.
  destruct info as [[exit n]|].
  - destruct Hc as (esm & message & sid & _ & _ & _ & _ & [_ (tr' & Htr & Hq & _)] & _).
    simpl in Htr. eexists (_ :: tr'). split; [by rewrite Htr, <- app_assoc|].
    change (length (requests ([StartChatStream message
              (dict_get_default data "agent" (VStr ""))
              (dict_get_default data "model" (VStr ""))] ++ tr')) <= 1)%nat.
    by rewrite requests_app, (requests_quiet tr' Hq).
  - destruct Hc as [_ [->|[->|(message & _ & ->)]]].
    + exists []. rewrite app_nil_r. split; [done|simpl; lia].
    + exists []. simpl. rewrite app_nil_r. split; [done|simpl; lia].
    + eexists [_]. split; [done|]. simpl. lia.
Qed.

(** X7. Whatever path it takes and however it ends, one call to
    [send_message] makes at most one request (one POST or one opening of
    a stream, never both, never a retry) and never stops, pauses or
    resumes a stream. *)
Theorem send_message_at_most_one_request w self fuel message options streaming
    on_chunk on_complete on_error kwargs st r st' :
  send_message w self fuel message options streaming on_chunk on_complete on_error
    kwargs st = Some (r, st') ->
  exists tr',
    trace st' = trace st ++ tr' /\
    (length (requests tr') <= 1)%nat /\
    Forall (fun e => changes_stream e = false) tr'.
Proof.
  intros H.
  destruct (send_message_trace _ _ _ _ _ _ _ _ _ _ _ _ _ H) as (tr' & Htr & Hch & _ & _).
  exists tr'. split; [done|]. split; [|done].
  unfold send_message in H. set (data := dict_update _ _) in H.
  destruct (negb (truthy (dict_get (default ∅ options) "agent"))).
  { inversion H; subst. rewrite <- (app_nil_r (trace st')) in Htr at 1.
    apply app_inv_head in Htr. subst. simpl. lia. }
  assert (forall (e : exn) (s : state) tr,
    trace s = trace st ++ tr ->
    (length (requests tr) <= 1)%nat ->
    (if (isinstance_Exception e && has_logger (http_client self))%bool
     then Some (Raise e,
                (emit (LoggerError ("Chat request failed for message: "
                                    ++ String.substring 0 50 message ++ "...")) s).2)
     else Some (Raise e, s)) = Some (r, st') ->
    (length (requests tr') <= 1)%nat) as Hlog.
  { intros e s tr Hs Hlen Heq.
    destruct (isinstance_Exception e && has_logger (http_client self))%bool;
      inversion Heq; subst; simpl in Htr; rewrite Hs in Htr.
    - rewrite <- app_assoc in Htr. apply app_inv_head in Htr. subst tr'.
      rewrite requests_app. simpl. rewrite app_nil_r. done.
    - apply app_inv_head in Htr. by subst. }
  destruct (streaming && bool_decide (is_Some (event_source_manager self))
            && is_feature_enabled w "streaming_responses")%bool.
  - unfold call_handle_streaming_response in H. destruct kwargs as [|k kwargs].
    + destruct (_handle_streaming_response _ _ _ _ _ _ _ _) as [[r0 s0]|] eqn:Hh; [|done].
      apply handle_streaming_response_requests in Hh as (tr0 & Htr0 & Hlen).
      destruct r0 as [v|e]; [|exact (Hlog e s0 tr0 Htr0 Hlen H)].
      inversion H; subst. rewrite Htr0 in Htr. apply app_inv_head in Htr. by subst.
    + refine (Hlog _ _ [] _ _ H); [by rewrite app_nil_r|simpl; lia].
  - destruct (post (http_client self) (CHAT w) data) as [v|e].
    + inversion H; subst. simpl in Htr. apply app_inv_head in Htr. subst. simpl. lia.
    + refine (Hlog e _ [HttpPost (CHAT w) data] _ _ H); [done|simpl; lia].
Qed.

Lemma send_message_at_most_one_request_witness :
  exists st' tr',
    send_message world0 service_hi 400 "Hello" (Some agent_general) true
      None None None [] initial_state = Some (Return (VStr "Hi there"), st') /\
    trace st' = trace initial_state ++ tr' /\
    (length (requests tr') <= 1)%nat /\
    Forall (fun e => changes_stream e = false) tr'.
Proof.
  assert (forall (P : Prop) (Q : Prop), P -> (P -> Q) -> P /\ Q) as Hcut by tauto.
  eexists.
  assert (forall (A : Type) (P : Prop) (Q : A -> Prop),
            P -> (P -> exists a, Q a) -> exists a, P /\ Q a) as Hex.
  { intros A P Q HP HQ. destruct (HQ HP) as [a Ha]. by exists a. }
  apply Hex; [vm_compute; reflexivity|].
  intros Hrun.
  apply (send_message_at_most_one_request _ _ _ _ _ _ _ _ _ _ _ _ _ Hrun).
Defined.

(** X8. A keyword argument [send_message] has no parameter for is fatal
    on the streaming path and ignored on the plain one: with a usable
    agent, the streaming call raises [TypeError] before the stream is
    opened (the trace gets at most the log line), while the plain call
    behaves as if the keyword were not there. *)
Theorem extra_keywords_break_streaming_only w self fuel message options streaming
    on_chunk on_complete on_error k ks st :
  truthy (dict_get (default ∅ options) "agent") = true ->
  ((streaming && bool_decide (is_Some (event_source_manager self))
    && is_feature_enabled w "streaming_responses")%bool = true ->
   exists st',
     send_message w self fuel message options streaming on_chunk on_complete on_error
       (k :: ks) st
     = Some (Raise (TypeError
          ("_handle_streaming_response() got an unexpected keyword argument " ++ k)), st') /\
     collected_response st' = collected_response st /\
     exists log, trace st' = trace st ++ log /\ requests log = []) /\
  ((streaming && bool_decide (is_Some (event_source_manager self))
    && is_feature_enabled w "streaming_responses")%bool = false ->
   send_message w self fuel message options streaming on_chunk on_complete on_error
     (k :: ks) st
   = send_message w self fuel message options streaming on_chunk on_complete on_error
       [] st).
Proof.
  intros Ha. split; intros Hcond; unfold send_message; rewrite Ha, Hcond; simpl; [|done].
  destruct (has_logger (http_client self)).
  - eexists. split; [reflexivity|]. split; [done|]. eexists [_]. by split.
  - eexists. split; [reflexivity|]. split; [done|]. exists []. by rewrite app_nil_r.
Qed.

Lemma extra_keywords_break_streaming_only_witness :
  exists st',
    send_message world0 service_hi 400 "Hello" (Some agent_general) true
      None None None ["timeout"%string] initial_state
    = Some (Raise (TypeError
         ("_handle_streaming_response() got an unexpected keyword argument " ++ "timeout")),
       st') /\
    collected_response st' = collected_response initial_state /\
    exists log, trace st' = trace initial_state ++ log /\ requests log = [].
Proof.
  apply (extra_keywords_break_streaming_only world0 service_hi 400 "Hello"
           (Some agent_general) true None None None "timeout"%string [] initial_state);
    vm_compute; reflexivity.
Defined.

(** X9. On the plain path with a usable agent, [send_message] returns
    exactly what [http_client.post] returns and raises exactly what it
    raises; the POST is the first new entry of the trace, followed by one
    log line when the failure is an [Exception] and the client has a
    logger, and by nothing otherwise. *)
Theorem plain_send_passes_outcome_through w self fuel message options streaming
    on_chunk on_complete on_error kwargs st :
  truthy (dict_get (default ∅ options) "agent") = true ->
  (streaming && bool_decide (is_Some (event_source_manager self))
   && is_feature_enabled w "streaming_responses")%bool = false ->
  let payload := dict_update {[ "message"%string := VStr message ]} (default ∅ options) in
  send_message w self fuel message options streaming on_chunk on_complete on_error
    kwargs st
  = Some (post (http_client self) (CHAT w) payload,
          mkState (collected_response st)
            (trace st ++
               HttpPost (CHAT w) payload ::
               match post (http_client self) (CHAT w) payload with
               | Raise e =>
                   if (isinstance_Exception e && has_logger (http_client self))%bool
                   then [LoggerError ("Chat request failed for message: "
                                      ++ String.substring 0 50 message ++ "...")]
                   else []
               | Return _ => []
               end)).
Proof.
  intros Ha Hcond payload. unfold send_message. rewrite Ha, Hcond. simpl.
  fold payload. destruct (post (http_client self) (CHAT w) payload) as [v|e]; [done|].
  destruct (isinstance_Exception e && has_logger (http_client self))%bool; [|done].
  simpl. by rewrite <- app_assoc.
Qed.

Lemma plain_send_passes_outcome_through_witness :
  send_message world0 service_failing 400 "Hello" (Some agent_general) true
    None None None [] initial_state
  = Some (Raise (RaisedException "ConnectionError"),
          mkState []
            [HttpPost "/chat"
               (dict_update {[ "message"%string := VStr "Hello" ]} agent_general);
             LoggerError "Chat request failed for message: Hello..."]).
Proof.
  assert (truthy (dict_get (default ∅ (Some agent_general)) "agent") = true) as Ha
    by (vm_compute; reflexivity).
  pose proof (plain_send_passes_outcome_through world0 service_failing 400 "Hello"
                (Some agent_general) true None None None [] initial_state Ha eq_refl) as H.
  rewrite H. vm_compute. reflexivity.
Defined.

(** ** More on the collect path *)

(** Leaving the loop on a terminal status: it is the first one seen, and
    every clock test up to that turn passed. *)
Lemma wait_loop_terminal w esm cb sid t0 fuel :
  forall n0 st n st',
    wait_loop w esm cb sid t0 fuel n0 st = Some (Terminal, n, st') ->
    is_terminal_status (get_stream_status esm n sid) = true /\
    time_time w (S n) - t0 < timeout /\
    forall i, (n0 <= i < n)%nat ->
      is_terminal_status (get_stream_status esm i sid) = false.
Proof.
  induction fuel as [|fuel IH]; intros n0 st n st' H; simpl in H; [done|].
  destruct (Z.ltb_spec (time_time w (S n0) - t0) timeout) as [Hlt|Hge]; [|done].
  destruct (is_terminal_status (get_stream_status esm n0 sid)) eqn:Hterm.
  - inversion H; subst. repeat split; [done|done|]. intros i Hi. lia.
  - apply IH in H as (Ht & Hclk & Hall). repeat split; [done|done|].
    intros i Hi. destruct (decide (i = n0)) as [->|Hne]; [done|]. apply Hall. lia.
Qed.

(** Every clock test before the turn in which the loop is left passed. *)
Lemma wait_loop_tests_passed w esm cb sid t0 fuel :
  forall n0 st exit n st',
    wait_loop w esm cb sid t0 fuel n0 st = Some (exit, n, st') ->
    forall i, (n0 <= i < n)%nat -> time_time w (S i) - t0 < timeout.
Proof.
  induction fuel as [|fuel IH]; intros n0 st exit n st' H; simpl in H; [done|].
  destruct (Z.ltb_spec (time_time w (S n0) - t0) timeout) as [Hlt|Hge].
  - destruct (is_terminal_status (get_stream_status esm n0 sid)).
    + inversion H; subst. intros i Hi. lia.
    + intros i Hi. destruct (decide (i = n0)) as [->|Hne]; [done|].
      eapply IH; [exact H|lia].
  - inversion H; subst. intros i Hi. lia.
Qed.

Lemma str_join_all_str parts :
  (exists text, str_join parts = Return text) <-> Forall (fun v => is_str v = true) parts.
Proof.
  induction parts as [|v parts IH]; simpl.
  - split; [constructor|eauto].
  - destruct v; simpl;
      try (split; [by intros [t Ht]|by inversion 1]).
    destruct (str_join parts) as [t|e].
    + split; [intros _; constructor; [done|apply IH; eauto]|eauto].
    + split; [by intros [t Ht]|].
      inversion 1; subst. apply IH in H3 as [t Ht]. done.
Qed.

Lemma str_join_raises_TypeError parts e :
  str_join parts = Raise e ->
  e = TypeError "sequence item: expected str instance".
Proof.
  induction parts as [|v parts IH]; simpl; [done|].
  destruct v; try (by inversion 1).
  destruct (str_join parts); [done|]. inversion 1; subst. by apply IH.
Qed.

(** X10. When the collect path leaves its loop on a terminal status, in
    turn [n], that status is the first terminal one the manager reported
    and the 30 seconds had not elapsed; the text is the join of the
    fragments of the events delivered before that turn, so events that
    arrive later are not part of it. *)
Theorem collect_returns_at_first_terminal_status w self fuel data
    on_chunk on_complete on_error st r st' n :
  collect_streaming_response w self fuel data on_chunk on_complete on_error st
    = Some (r, st', Some (Terminal, n)) ->
  exists esm message stream_id,
    event_source_manager self = Some esm /\
    data !! "message" = Some message /\
    start_chat_stream esm message (dict_get_default data "agent" (VStr ""))
      (dict_get_default data "model" (VStr "")) = Return stream_id /\
    is_terminal_status (get_stream_status esm n stream_id) = true /\
    (forall i, (i < n)%nat ->
       is_terminal_status (get_stream_status esm i stream_id) = false) /\
    time_time w (S n) - time_time w 0 < timeout /\
    r = joined (fragments (delivered_before esm n)).
Proof.
  intros Hrun.
  apply collect_streaming_response_inv in Hrun
    as (esm & message & sid & Hesm & Hm & Hstart & Hw & [Hcol _] & Hr).
  simpl in Hcol. exists esm, message, sid. rewrite <- Hcol.
  do 3 (split; [done|]).
  apply wait_loop_terminal in Hw as (Ht & Hclk & Hall).
  split; [done|]. split; [intros i Hi; apply Hall; lia|]. by split.
Qed.

Lemma collect_returns_at_first_terminal_status_witness :
  exists st',
    collect_streaming_response world0 service_hi 400 data_hello
      (Some quiet) None None initial_state
      = Some (Return (VStr "Hi there"), st', Some (Terminal, 3%nat)) /\
    exists esm message stream_id,
      event_source_manager service_hi = Some esm /\
      data_hello !! "message" = Some message /\
      start_chat_stream esm message (dict_get_default data_hello "agent" (VStr ""))
        (dict_get_default data_hello "model" (VStr "")) = Return stream_id /\
      is_terminal_status (get_stream_status esm 3 stream_id) = true /\
      (forall i, (i < 3)%nat ->
         is_terminal_status (get_stream_status esm i stream_id) = false) /\
      time_time world0 4 - time_time world0 0 < timeout /\
      Return (VStr "Hi there") = joined (fragments (delivered_before esm 3)).
Proof.
  assert (forall (P : Prop) (Q : Prop), P -> (P -> Q) -> P /\ Q) as Hcut by tauto.
  eexists. apply Hcut; [vm_compute; reflexivity|].
  intros Hrun.
  apply (collect_returns_at_first_terminal_status world0 service_hi 400 data_hello
           (Some quiet) None None initial_state _ _ _ Hrun).
Defined.

(** X11. Once the stream was waited for, the collect path returns a text
    exactly when every fragment it kept is a string; one fragment of
    another type (a number under ['response'], say) makes the final join
    raise [TypeError], after the whole wait. *)
Theorem collect_text_iff_fragments_are_strings w self fuel data
    on_chunk on_complete on_error st r st' exit n esm :
  collect_streaming_response w self fuel data on_chunk on_complete on_error st
    = Some (r, st', Some (exit, n)) ->
  event_source_manager self = Some esm ->
  ((exists text, r = Return (VStr text)) <->
   Forall (fun v => is_str v = true) (fragments (delivered_before esm n))) /\
  ((exists e, r = Raise e) ->
   r = Raise (TypeError "sequence item: expected str instance")).
Proof.
  intros Hrun Hesm.
  apply collect_streaming_response_inv in Hrun
    as (esm' & message & sid & Hesm' & _ & _ & _ & [Hcol _] & Hr).
  rewrite Hesm in Hesm'. inversion Hesm'; subst esm'. simpl in Hcol.
  rewrite <- Hcol, <- str_join_all_str. subst r. unfold joined.
  destruct (str_join (collected_response st')) as [t|e] eqn:Hj.
  - split; [split; eauto|]. by intros [e He].
  - split; [split; [by intros [t Ht]|by intros [t Ht]]|].
    intros _. by rewrite (str_join_raises_TypeError _ _ Hj).
Qed.

Lemma collect_text_iff_fragments_are_strings_witness :
  exists st',
    collect_streaming_response world0 service_number 400 data_hello
      None None None initial_state
    = Some (Raise (TypeError "sequence item: expected str instance"), st',
            Some (TimedOut, 299%nat)) /\
    ~ Forall (fun v => is_str v = true) (fragments (delivered_before esm_number 299)).
Proof.
  assert (forall (P : Prop) (Q : Prop), P -> (P -> Q) -> P /\ Q) as Hcut by tauto.
  eexists. apply Hcut; [vm_compute; reflexivity|].
  intros Hrun Hall.
  destruct (collect_text_iff_fragments_are_strings world0 service_number 400 data_hello
              None None None initial_state _ _ _ _ esm_number Hrun eq_refl) as [Hiff _].
  apply Hiff in Hall as [text Htext]. discriminate.
Defined.

Lemma default_chunk_handler_callbacks_only on_chunk on_error ev st :
  exists tr',
    trace (default_chunk_handler on_chunk on_error ev st).2 = trace st ++ tr' /\
    Forall (fun e => is_callback e = true) tr'.
Proof.
  unfold default_chunk_handler, try_except_Exception, invoke_if_set, invoke,
    collected_response_append, mbind, M_bind, mret, M_ret.
  destruct st as [col tr]. simpl.
  repeat match goal with
         | |- context [match ?x with _ => _ end] =>
             lazymatch x with
             | context [match _ with _ => _ end] => fail
             | _ => destruct x; simpl
             end
         end;
    first [ exists []; rewrite app_nil_r; split; [reflexivity|constructor]
          | eexists [_]; split; [reflexivity|by repeat constructor]
          | eexists [_; _]; split; [by rewrite <- app_assoc|by repeat constructor] ].
Qed.

Lemma deliver_default_callbacks_only on_chunk on_error evs st :
  exists tr',
    trace (deliver (default_chunk_handler on_chunk on_error) evs st) = trace st ++ tr' /\
    Forall (fun e => is_callback e = true) tr'.
Proof.
  revert st. induction evs as [|ev evs IH]; intros st; simpl.
  - exists []. by rewrite app_nil_r.
  - destruct (default_chunk_handler_callbacks_only on_chunk on_error ev st)
      as (tr1 & H1 & Hc1).
    destruct (IH (default_chunk_handler on_chunk on_error ev st).2) as (tr2 & H2 & Hc2).
    exists (tr1 ++ tr2). rewrite H2, H1, app_assoc. split; [done|]. by apply Forall_app.
Qed.

Lemma status_queries_app tr1 tr2 :
  status_queries (tr1 ++ tr2) = status_queries tr1 ++ status_queries tr2.
Proof. apply List.filter_app. Qed.

Lemma status_queries_callbacks tr :
  Forall (fun e => is_callback e = true) tr -> status_queries tr = [].
Proof.
  induction 1 as [|e tr He _ IH]; [done|]. unfold status_queries in *. simpl.
  by destruct e.
Qed.

(** The loop asks for the status once per turn it enters. *)
Lemma wait_loop_status_queries w esm on_chunk on_error sid t0 fuel :
  forall n0 st exit n st',
    wait_loop w esm (default_chunk_handler on_chunk on_error) sid t0 fuel n0 st
      = Some (exit, n, st') ->
    exists tr',
      trace st' = trace st ++ tr' /\
      length (status_queries tr')
      = match exit with Terminal => S (n - n0) | TimedOut => (n - n0)%nat end.
Proof.
  induction fuel as [|fuel IH]; intros n0 st exit n st' H; simpl in H; [done|].
  destruct (time_time w (S n0) - t0 <? timeout).
  - destruct (is_terminal_status (get_stream_status esm n0 sid)).
    + inversion H; subst. exists [GetStreamStatus sid]. by rewrite Nat.sub_diag.
    + pose proof H as Hle. apply wait_loop_advances in Hle as [Hle _].
      apply IH in H as (tr2 & Htr2 & Hlen).
      match type of Htr2 with
      | _ = trace (deliver _ _ ?s) ++ _ =>
          destruct (deliver_default_callbacks_only on_chunk on_error
                      (events_while_sleeping esm n0) s) as (tr1 & Htr1 & Hcb)
      end.
      exists ([GetStreamStatus sid] ++ tr1 ++ tr2).
      split; [rewrite Htr2, Htr1; simpl; by rewrite <- !app_assoc|].
      rewrite !status_queries_app, (status_queries_callbacks tr1 Hcb). simpl.
      rewrite Hlen. destruct exit; lia.
  - inversion H; subst. exists []. rewrite app_nil_r, Nat.sub_diag. done.
Qed.

(** X13. On a clock that each sleep advances by at least the polling
    interval, the collect path asks the manager for the status at most 300
    times per call, and leaves its loop in turn 300 at the latest. *)
Theorem collect_polls_at_most_300_times w self fuel data on_chunk on_complete on_error
    st r st' exit n delta :
  clock_ticks w delta ->
  collect_streaming_response w self fuel data on_chunk on_complete on_error st
    = Some (r, st', Some (exit, n)) ->
  (n <= 300)%nat /\
  exists tr',
    trace st' = trace st ++ tr' /\ (length (status_queries tr') <= 300)%nat.
Proof.
  intros Hclk Hrun.
  apply collect_streaming_response_inv in Hrun
    as (esm & message & sid & _ & _ & _ & Hw & _ & _).
  pose proof (wait_loop_tests_passed _ _ _ _ _ _ _ _ _ _ _ Hw) as Hpassed.
  assert (forall i, time_time w (S i) - time_time w 0 < timeout -> (i < 300)%nat) as Hlt.
  { intros i Hi. pose proof (clock_ticks_lower_bound w delta i Hclk).
    unfold timeout, poll_interval in *. lia. }
  assert (n <= 300)%nat as Hn.
  { destruct n as [|n]; [lia|]. specialize (Hpassed n ltac:(lia)).
    apply Hlt in Hpassed. lia. }
  split; [done|].
  pose proof Hw as Hq. apply wait_loop_status_queries in Hq as (tr2 & Htr2 & Hlen).
  destruct (deliver_default_callbacks_only on_chunk on_error (events_on_start esm)
              (mkState [] (trace st ++ [StartChatStream message
                 (dict_get_default data "agent" (VStr ""))
                 (dict_get_default data "model" (VStr ""))])))
    as (tr1 & Htr1 & Hcb).
  exists ([StartChatStream message (dict_get_default data "agent" (VStr ""))
             (dict_get_default data "model" (VStr ""))] ++ tr1 ++ tr2).
  split; [rewrite Htr2, Htr1; simpl; by rewrite <- !app_assoc|].
  rewrite !status_queries_app, (status_queries_callbacks tr1 Hcb). simpl.
  rewrite Hlen, Nat.sub_0_r. destruct exit; [|lia].
  apply wait_loop_terminal in Hw as (_ & Hclock & _). apply Hlt in Hclock. lia.
Qed.

Lemma collect_polls_at_most_300_times_witness :
  exists st',
    collect_streaming_response world0 service_never 400 data_hello
      None None None initial_state
      = Some (Return (VStr "Hi"), st', Some (TimedOut, 299%nat)) /\
    (299 <= 300)%nat /\
    exists tr',
      trace st' = trace initial_state ++ tr' /\
      (length (status_queries tr') <= 300)%nat.
Proof.
  assert (forall (P : Prop) (Q : Prop), P -> (P -> Q) -> P /\ Q) as Hcut by tauto.
  eexists. apply Hcut; [vm_compute; reflexivity|].
  intros Hrun.
  eapply (collect_polls_at_most_300_times world0 service_never 400 data_hello
            None None None initial_state) with (delta := 100); [|exact Hrun].
  unfold clock_ticks, world0, poll_interval; simpl. repeat split; intros; lia.
Defined.

(** ** [send_message_with_files] *)

Lemma read_files_app fs items1 items2 file_data log :
  read_files fs (items1 ++ items2) file_data log
  = match read_files fs items1 file_data log with
    | (Return file_data', log') => read_files fs items2 file_data' log'
    | (Raise e, log') => (Raise e, log')
    end.
Proof.
  revert file_data log. induction items1 as [|item items1 IH]; intros file_data log; simpl.
  - done.
  - destruct item as [| b | z | p | l | d]; try apply IH.
    destruct (open_rb fs p); [apply IH|done].
Qed.

(** While the loop succeeds, it opens every path in turn and keeps the
    mapping within the one key ['files']. *)
Lemma read_files_spec fs items :
  forall file_data log,
    (forall k, k <> "files"%string -> file_data !! k = None) ->
    (forall file_data', (read_files fs items file_data log).1 = Return file_data' ->
       (read_files fs items file_data log).2 = log ++ (OpenRead <$> paths_of items) /\
       forall k, k <> "files"%string -> file_data' !! k = None) /\
    exists opened, (read_files fs items file_data log).2 = log ++ (OpenRead <$> opened).
Proof.
  induction items as [|item items IH]; intros file_data log Hkeys; simpl.
  - split; [|exists []; by rewrite app_nil_r].
    intros fd' Hfd. inversion Hfd; subst. by rewrite app_nil_r.
  - assert (forall u k, k <> "files"%string ->
              (<[ "files"%string := u ]> file_data : gmap string upload) !! k = None) as Hins.
    { intros u k Hk. rewrite lookup_insert_ne by done. by apply Hkeys. }
    destruct item as [| b | z | p | l | d];
      try (apply IH; apply Hins).
    destruct (open_rb fs p) as [content|e]; simpl.
    + destruct (IH (<[ "files"%string := FileTuple (basename fs p) content
                                            "application/octet-stream" ]> file_data)
                  (log ++ [OpenRead p]) (Hins _)) as [IH1 [opened IH2]].
      split.
      * intros fd' Hfd. destruct (IH1 fd' Hfd) as [Hlog Hk]. split; [|done].
        rewrite Hlog. by rewrite <- app_assoc.
      * exists (p :: opened). rewrite IH2. by rewrite <- app_assoc.
    + split; [done|]. by exists [p].
Qed.

(** X14. From a list of files, only the last item reaches the server:
    every path of the list is opened and read in turn, but each item
    overwrites the single entry ['files'] of the mapping, so when the
    earlier items are readable the mapping posted holds the last item and
    nothing else. *)
Theorem only_last_file_is_uploaded fs items last file_data :
  (read_files fs items ∅ []).1 = Return file_data ->
  prepare_files fs (VList (items ++ [last]))
  = (match upload_of fs last with
     | Return u => Return {[ "files"%string := u ]}
     | Raise e => Raise e
     end,
     OpenRead <$> paths_of (items ++ [last])).
Proof.
  intros Hok. unfold prepare_files. rewrite read_files_app.
  destruct (read_files_spec fs items ∅ [] (fun k _ => lookup_empty k)) as [Hspec _].
  destruct (Hspec file_data Hok) as [Hlog Hkeys]. simpl in Hlog.
  destruct (read_files fs items ∅ []) as [[fd|e] log]; simpl in *; [|done].
  inversion Hok; subst fd. subst log.
  unfold paths_of. rewrite omap_app, fmap_app. fold (paths_of items).
  assert (forall u, (<[ "files"%string := u ]> file_data : gmap string upload)
                    = {[ "files"%string := u ]}) as Hone.
  { intros u. apply map_eq. intros k.
    destruct (decide (k = "files"%string)) as [->|Hk].
    - by rewrite lookup_insert_eq, lookup_singleton_eq.
    - rewrite lookup_insert_ne, lookup_singleton_ne by done. by apply Hkeys. }
  destruct last as [| b | z | p | l | d]; simpl; rewrite ?Hone, ?app_nil_r; try done.
  destruct (open_rb fs p); simpl; by rewrite ?Hone.
Qed.

Lemma only_last_file_is_uploaded_witness :
  prepare_files fs0 (VList ([VStr "/tmp/a.txt"] ++ [VStr "/tmp/b.txt"]))
  = (Return {[ "files"%string := FileTuple "b.txt" "beta" "application/octet-stream" ]},
     [OpenRead "/tmp/a.txt"; OpenRead "/tmp/b.txt"]).
Proof.
  assert ((read_files fs0 [VStr "/tmp/a.txt"] ∅ []).1
          = Return {[ "files"%string :=
                        FileTuple "a.txt" "alpha" "application/octet-stream" ]}) as Hok
    by (vm_compute; reflexivity).
  rewrite (only_last_file_is_uploaded fs0 [VStr "/tmp/a.txt"] (VStr "/tmp/b.txt") _ Hok).
  vm_compute. reflexivity.
Defined.

Lemma filter_other_keys_lookup (o : gmap string value) k :
  filter (fun kv : string * value => kv.1 ∉ ["agent"; "model"]%string) o !! k
  = if bool_decide (k ∈ ["agent"; "model"]%string) then None else o !! k.
Proof.
  case_bool_decide as Hk.
  - apply map_lookup_filter_None. right. intros v _. simpl. tauto.
  - destruct (o !! k) as [v|] eqn:Hv.
    + apply map_lookup_filter_Some. by split.
    + apply map_lookup_filter_None. by left.
Qed.

(** The form data of the RAG initialisation, key by key. *)
Lemma upload_data_lookup w options k :
  upload_data_of w options !! k
  = if bool_decide (k = "agent"%string) then
      Some (option_or_default options "agent" (VStr "general"))
    else if bool_decide (k = "model"%string) then
      Some (option_or_default options "model" (default_model w))
    else match options with
         | Some o =>
             if truthy (VDict o)
             then match o !! k with
                  | Some v => Some v
                  | None => if bool_decide (k = "use_finetuning"%string)
                            then Some (VBool false) else None
                  end
             else if bool_decide (k = "use_finetuning"%string)
                  then Some (VBool false) else None
         | None => if bool_decide (k = "use_finetuning"%string)
                   then Some (VBool false) else None
         end.
Proof.
  assert (forall (a m : value),
    (<[ "agent"%string := a ]> (<[ "model"%string := m ]>
       {[ "use_finetuning"%string := VBool false ]}) : gmap string value) !! k
    = if bool_decide (k = "agent"%string) then Some a
      else if bool_decide (k = "model"%string) then Some m
      else if bool_decide (k = "use_finetuning"%string) then Some (VBool false)
      else None) as Hbase.
  { intros a m. repeat case_bool_decide; subst; simplify_map_eq; done. }
  unfold upload_data_of.
  destruct options as [o|]; [|apply Hbase].
  destruct (truthy (VDict o)); [|apply Hbase].
  unfold dict_update. rewrite lookup_union, filter_other_keys_lookup, Hbase.
  assert (k ∈ ["agent"; "model"]%string <-> k = "agent"%string \/ k = "model"%string)
    as Hmem by (rewrite !elem_of_cons, elem_of_nil; tauto).
  destruct (decide (k = "agent"%string)) as [->|Ha].
  { by rewrite !bool_decide_eq_true_2 by (try apply Hmem; auto). }
  destruct (decide (k = "model"%string)) as [->|Hm].
  { rewrite (bool_decide_eq_true_2 (_ ∈ _)) by (apply Hmem; auto).
    by rewrite bool_decide_eq_false_2, bool_decide_eq_true_2 by done. }
  rewrite (bool_decide_eq_false_2 (_ ∈ _)) by (rewrite Hmem; tauto).
  rewrite (bool_decide_eq_false_2 (k = "agent"%string)) by done.
  rewrite (bool_decide_eq_false_2 (k = "model"%string)) by done.
  by destruct (o !! k), (bool_decide (k = "use_finetuning"%string)).
Qed.

(** X15. When the files are read and the RAG initialisation answers,
    [send_message_with_files] makes exactly two posts, first the
    initialisation with the files and then the chat message, and returns
    or raises what the second one does. The chat payload holds exactly
    [message], [agent] and [model]: the agent defaults to ['general']
    without any validation, a ['message'] entry in [options] does not
    replace the message (it goes to the initialisation form instead), and
    no other option reaches the chat endpoint. *)
Theorem files_chat_payload w self fs post_with_files INITIALIZE_RAG message files options
    file_data log rag_response :
  prepare_files fs files = (Return file_data, log) ->
  post_with_files INITIALIZE_RAG (upload_data_of w options) file_data
    = Return rag_response ->
  let chat_data : gmap string value :=
    <[ "message"%string := VStr message ]>
      (<[ "agent"%string := option_or_default options "agent" (VStr "general") ]>
         {[ "model"%string := option_or_default options "model" (default_model w) ]}) in
  send_message_with_files w self fs post_with_files INITIALIZE_RAG message files options
  = (post (http_client self) (CHAT w) chat_data,
     log ++ [PostForm INITIALIZE_RAG (upload_data_of w options) (Some file_data);
             PostForm (CHAT w) chat_data None]) /\
  (forall o k v,
     options = Some o -> o !! k = Some v -> k <> "agent"%string -> k <> "model"%string ->
     upload_data_of w options !! k = Some v /\
     (k <> "message"%string -> chat_data !! k = None)).
Proof.
  intros Hprep Hrag chat_data. split.
  - unfold send_message_with_files. rewrite Hprep, Hrag. unfold dict_get.
    rewrite !upload_data_lookup. simpl. by rewrite <- app_assoc.
  - intros o k v -> Hk Ha Hm. split.
    + rewrite upload_data_lookup.
      rewrite !bool_decide_eq_false_2 by done.
      assert (truthy (VDict o) = true) as ->; [|by rewrite Hk].
      simpl. apply negb_true_iff, bool_decide_eq_false_2. intros Hsize.
      apply map_size_empty_iff in Hsize. subst o. by rewrite lookup_empty in Hk.
    + intros Hmsg. subst chat_data. by simplify_map_eq.
Qed.

Lemma files_chat_payload_witness :
  send_message_with_files world0 service_plain fs0 rag_ok "/rag" "Hello"
    (VStr "/tmp/a.txt") (Some options_temperature)
  = (Return (VDict {[ "response"%string := VStr "ok" ]}),
     [OpenRead "/tmp/a.txt";
      PostForm "/rag"
        (<[ "agent"%string := VStr "general" ]>
           (<[ "model"%string := VStr "unsloth/Qwen3-1.7B-bnb-4bit" ]>
              (<[ "use_finetuning"%string := VBool false ]> options_temperature)))
        (Some {[ "files"%string := FileTuple "a.txt" "alpha" "application/octet-stream" ]});
      PostForm "/chat"
        (<[ "message"%string := VStr "Hello" ]>
           (<[ "agent"%string := VStr "general" ]>
              {[ "model"%string := VStr "unsloth/Qwen3-1.7B-bnb-4bit" ]}))
        None]).
Proof.
  destruct (files_chat_payload world0 service_plain fs0 rag_ok "/rag" "Hello"
              (VStr "/tmp/a.txt") (Some options_temperature)
              {[ "files"%string := FileTuple "a.txt" "alpha" "application/octet-stream" ]}
              [OpenRead "/tmp/a.txt"]
              (VDict {[ "status"%string := VStr "initialized" ]})
              eq_refl eq_refl) as [H _].
  rewrite H. vm_compute. reflexivity.
Defined.

(** X16. Failures stop [send_message_with_files] where they occur. When
    a file cannot be read, the exception comes back and no post is made.
    When the RAG initialisation raises, that exception comes back and the
    chat endpoint is never contacted: the one post made is the
    initialisation. *)
Theorem files_failures_stop_the_call w self fs post_with_files INITIALIZE_RAG
    message files options :
  (forall e log,
     prepare_files fs files = (Raise e, log) ->
     send_message_with_files w self fs post_with_files INITIALIZE_RAG message files options
       = (Raise e, log) /\
     posts_of log = []) /\
  (forall file_data log e,
     prepare_files fs files = (Return file_data, log) ->
     post_with_files INITIALIZE_RAG (upload_data_of w options) file_data = Raise e ->
     send_message_with_files w self fs post_with_files INITIALIZE_RAG message files options
       = (Raise e,
          log ++ [PostForm INITIALIZE_RAG (upload_data_of w options) (Some file_data)]) /\
     posts_of log = []).
Proof.
  assert (forall log, (prepare_files fs files).2 = log -> posts_of log = []) as Hopens.
  { intros log <-. unfold prepare_files.
    assert (forall opened, posts_of (OpenRead <$> opened) = []) as Hop
      by (induction opened; done).
    destruct files as [| b | z | p | l | d]; try done.
    - destruct (open_rb fs p); done.
    - destruct (read_files_spec fs l ∅ [] (fun k _ => lookup_empty k))
        as [_ [opened ->]]. apply Hop. }
  split.
  - intros e log Hprep. unfold send_message_with_files. rewrite Hprep.
    split; [done|]. apply Hopens. by rewrite Hprep.
  - intros file_data log e Hprep Hrag. unfold send_message_with_files.
    rewrite Hprep, Hrag. split; [done|]. apply Hopens. by rewrite Hprep.
Qed.

Lemma files_failures_stop_the_call_witness :
  send_message_with_files world0 service_plain fs0 rag_ok "/rag" "Hello"
    (VList [VStr "/tmp/a.txt"; VStr "/tmp/missing.txt"; VStr "/tmp/b.txt"]) None
  = (Raise (RaisedException "FileNotFoundError"),
     [OpenRead "/tmp/a.txt"; OpenRead "/tmp/missing.txt"]) /\
  send_message_with_files world0 service_plain fs0 rag_down "/rag" "Hello"
    (VStr "/tmp/a.txt") None
  = (Raise (RaisedException "ConnectionError"),
     [OpenRead "/tmp/a.txt"] ++
     [PostForm "/rag" (upload_data_of world0 None)
        (Some {[ "files"%string := FileTuple "a.txt" "alpha" "application/octet-stream" ]})]).
Proof.
  split.
  - apply (files_failures_stop_the_call world0 service_plain fs0 rag_ok "/rag" "Hello"
             (VList [VStr "/tmp/a.txt"; VStr "/tmp/missing.txt"; VStr "/tmp/b.txt"]) None).
    vm_compute. reflexivity.
  - apply (files_failures_stop_the_call world0 service_plain fs0 rag_down "/rag" "Hello"
             (VStr "/tmp/a.txt") None); vm_compute; reflexivity.
Defined.

(** * The agent builder, caller of [send_message] *)

(** ** Capabilities *)

Lemma with_capability_spec c capability :
  capabilities (with_capability c capability)
  = if bool_decide (capability ∈ capabilities c)
    then capabilities c
    else capabilities c ++ [capability].
Proof.
  unfold with_capability.
  destruct (decide (capability ∈ capabilities c)) as [Hin|Hnot].
  - by rewrite bool_decide_eq_false_2, bool_decide_eq_true_2 by auto.
  - by rewrite bool_decide_eq_true_2, bool_decide_eq_false_2 by auto.
Qed.

Lemma with_capability_other_fields c capability :
  set_capabilities (with_capability c capability) (capabilities c) = c.
Proof.
  unfold with_capability. destruct c. by case_bool_decide.
Qed.

(** X17. [with_capabilities] never appends a capability object that the
    list already holds: on a list without repeated objects it yields a
    list without repeated objects that starts with the old list, holds
    exactly the old and the requested objects, and touches no other field
    of the configuration. The comparison is that of enum members, class
    and name: a member of the [AgentCapability] of [builder.py] is
    appended next to the member of the same name of [types.py] that a
    template left in the list. *)
Theorem with_capabilities_keeps_distinct c caps :
  NoDup (capabilities c) ->
  NoDup (capabilities (with_capabilities c caps)) /\
  capabilities c `prefix_of` capabilities (with_capabilities c caps) /\
  (forall x, x ∈ capabilities (with_capabilities c caps)
             <-> x ∈ capabilities c \/ x ∈ caps) /\
  set_capabilities (with_capabilities c caps) (capabilities c) = c.
Proof.
  unfold with_capabilities. revert c.
  induction caps as [|cap caps IH]; intros c Hnd; simpl.
  - repeat split; [done|done|by left|by intros [?|?%elem_of_nil]|by destruct c].
  - assert (NoDup (capabilities (with_capability c cap))) as Hnd'.
    { rewrite with_capability_spec. case_bool_decide; [done|].
      apply NoDup_app. repeat split; [done| |apply NoDup_singleton].
      intros x Hx ->%list_elem_of_singleton. done. }
    destruct (IH _ Hnd') as (H1 & H2 & H3 & H4).
    split; [done|]. split; [|split].
    + etrans; [|exact H2]. rewrite with_capability_spec.
      case_bool_decide; [done|]. by apply prefix_app_r.
    + intros x. rewrite H3, with_capability_spec, elem_of_cons.
      case_bool_decide as Hc; [|rewrite elem_of_app, list_elem_of_singleton]; [|tauto].
      split; [tauto|]. intros [?|[->|?]]; tauto.
    + transitivity (set_capabilities
                      (set_capabilities (fold_left with_capability caps (with_capability c cap))
                         (capabilities (with_capability c cap)))
                      (capabilities c)); [done|].
      rewrite H4. apply with_capability_other_fields.
Qed.

Lemma with_capabilities_keeps_distinct_witness :
  capabilities (with_capabilities config_template
                  [mkCapability BuilderModule WEB_SEARCH;
                   mkCapability TypesModule WEB_SEARCH;
                   mkCapability BuilderModule WEB_SEARCH])
  = [mkCapability TypesModule WEB_SEARCH; mkCapability BuilderModule WEB_SEARCH] /\
  NoDup (capabilities (with_capabilities config_template
                         [mkCapability BuilderModule WEB_SEARCH;
                          mkCapability TypesModule WEB_SEARCH;
                          mkCapability BuilderModule WEB_SEARCH])).
Proof.
  split; [vm_compute; reflexivity|].
  apply (with_capabilities_keeps_distinct config_template
           [mkCapability BuilderModule WEB_SEARCH;
            mkCapability TypesModule WEB_SEARCH;
            mkCapability BuilderModule WEB_SEARCH]).
  vm_compute. apply NoDup_cons. split; [|apply NoDup_nil; exact I].
  intros H. inversion H.
Defined.

(** ** [build] and [validate] *)

Lemma truthy_VStr s : truthy (VStr s) = true <-> s <> ""%string.
Proof.
  simpl. rewrite negb_true_iff. apply String.eqb_neq.
Qed.

Lemma Qltb_false a b : Qltb a b = false <-> (b <= a)%Q.
Proof.
  unfold Qltb. rewrite negb_false_iff. apply Qle_bool_iff.
Qed.

(** The temperatures [validate] lets through: those that are neither
    below 0 nor above 2. *)
Lemma temperature_test_passes t :
  (float_ltb t (Finite 0) || float_ltb (Finite 2) t)%bool = false <->
  t = NaN \/ exists q, t = Finite q /\ (0 <= q)%Q /\ (q <= 2)%Q.
Proof.
  destruct t as [q| | |]; simpl.
  - rewrite orb_false_iff, !Qltb_false. split.
    + intros [H0 H2]. right. by exists q.
    + intros [?|(q' & Hq & H0 & H2)]; [done|]. by inversion Hq; subst.
  - split; [done|]. by intros [?|(q & ? & _)].
  - split; [done|]. by intros [?|(q & ? & _)].
  - split; [by left|done].
Qed.

(** X18. [validate] returns no error exactly when name and description
    are non-empty, the number of tokens is positive and the temperature is
    neither below 0 nor above 2: a finite value within 0 and 2, or a NaN,
    which fails both comparisons and so is accepted. [build] makes two
    checks only: it raises its [ValidationError] for the name exactly when
    the name is empty, and the one for the description exactly when the
    name is non-empty and the description empty, whatever the temperature
    and the token limit. So a configuration [validate] finds no fault
    with passes both checks of [build]. *)
Theorem build_and_validate c sdk_instance :
  (validate c = [] <->
   name c <> ""%string /\ description c <> ""%string /\
   (temperature c = NaN \/
    exists q, temperature c = Finite q /\ (0 <= q)%Q /\ (q <= 2)%Q) /\
   0 < max_tokens c) /\
  (build c sdk_instance = Raise (ValidationError "Agent name is required" "") <->
   name c = ""%string) /\
  (build c sdk_instance = Raise (ValidationError "Agent description is required" "") <->
   name c <> ""%string /\ description c = ""%string) /\
  (validate c = [] ->
   forall msg field_name, build c sdk_instance <> Raise (ValidationError msg field_name)).
Proof.
  assert (forall s, truthy (VStr s) = false <-> s = ""%string) as Hfalsy.
  { intros s. simpl. rewrite negb_false_iff. apply String.eqb_eq. }
  assert (validate c = [] <->
          name c <> ""%string /\ description c <> ""%string /\
          (temperature c = NaN \/
           exists q, temperature c = Finite q /\ (0 <= q)%Q /\ (q <= 2)%Q) /\
          0 < max_tokens c) as Hval.
  { unfold validate. rewrite <- !truthy_VStr, <- temperature_test_passes.
    destruct (truthy (VStr (name c))), (truthy (VStr (description c))),
      (float_ltb (temperature c) (Finite 0) || float_ltb (Finite 2) (temperature c))%bool,
      (Z.leb_spec (max_tokens c) 0); simpl; split; try done;
      try (by intros (? & ? & ? & ?)); try (intros (? & ? & ? & ?); lia).
    all: intros _; repeat split; try done; lia. }
  split; [done|].
  unfold build.
  destruct (truthy (VStr (name c))) eqn:Hn; cbn [negb].
  - apply truthy_VStr in Hn.
    destruct (truthy (VStr (description c))) eqn:Hd; cbn [negb].
    + apply truthy_VStr in Hd.
      split; [split; [done|by intros ?]|].
      split; [split; [done|by intros [_ ?]]|]. done.
    + apply Hfalsy in Hd.
      split; [split; [done|by intros ?]|]. split; [by split|].
      intros Hv. apply Hval in Hv as (_ & Hdesc & _). done.
  - apply Hfalsy in Hn. split; [by split|].
    split; [split; [done|by intros [? _]]|].
    intros Hv. apply Hval in Hv as (Hname & _). done.
Qed.

Lemma build_and_validate_witness :
  validate config_nan = [] /\
  validate config_hot <> [] /\
  forall msg field_name,
    build config_hot None <> Raise (ValidationError msg field_name).
Proof.
  destruct (build_and_validate config_nan None) as (Hnan & _).
  destruct (build_and_validate config_hot None) as (Hhot & Hname & Hdesc & _).
  split; [|split].
  - apply Hnan. split; [done|]. split; [done|]. split; [by left|done].
  - intros Hv. apply Hhot in Hv as (_ & _ & [Ht|(q & Ht & _ & Hq)] & _);
      [discriminate|].
    inversion Ht; subst. revert Hq. vm_compute. intros H. apply H. reflexivity.
  - intros msg field_name Hraise. vm_compute in Hraise. discriminate.
Defined.

(** ** [_build_prompt] *)






(** ** [process_message] *)

(** X20. An agent that [build] made for a chat service, asked to process
    a message with options that name no agent, sends exactly one POST to
    the chat endpoint and returns or raises what it yields, and never a
    [ValidationError]: the configuration's name, which [build] checked to
    be non-empty, is filled in as the agent. The message sent is the
    prompt built from the configuration, unless the options hold a
    ['message'] entry, which then replaces the prompt. *)
Theorem built_agent_sends_prompt w json_dumps_indent2 c chat_service agent fuel message
    options st :
  build c (Some chat_service) = Return agent ->
  default ∅ options !! "agent" = None ->
  let prompt := _build_prompt json_dumps_indent2 c message options in
  let payload :=
    dict_update {[ "message"%string := VStr prompt ]}
      (<[ "agent"%string := VStr (name c) ]> (default ∅ options)) in
  process_message w json_dumps_indent2 agent fuel message options st
  = Some (post (http_client chat_service) (CHAT w) payload,
          mkState (collected_response st)
            (trace st ++
               HttpPost (CHAT w) payload ::
               match post (http_client chat_service) (CHAT w) payload with
               | Raise e =>
                   if (isinstance_Exception e && has_logger (http_client chat_service))%bool
                   then [LoggerError ("Chat request failed for message: "
                                      ++ String.substring 0 50 prompt ++ "...")]
                   else []
               | Return _ => []
               end)) /\
  payload !! "agent" = Some (VStr (name c)) /\
  payload !! "message" = Some (default (VStr prompt) (default ∅ options !! "message")).
Proof.
  intros Hbuild Hagent prompt payload.
  assert (name c <> ""%string /\ agent = mkCustomAgent c (Some chat_service) true)
    as [Hname ->].
  { unfold build in Hbuild.
    destruct (truthy (VStr (name c))) eqn:Hn; [|done]. apply truthy_VStr in Hn.
    destruct (truthy (VStr (description c))); [|done]. by inversion Hbuild. }
  assert (options_with_agent c options
          = <[ "agent"%string := VStr (name c) ]> (default ∅ options)) as Hopts.
  { unfold options_with_agent, dict_contains. by rewrite Hagent. }
  split; [|split].
  - unfold process_message. simpl. rewrite Hopts. fold prompt.
    unfold send_message. simpl. unfold dict_get. rewrite lookup_insert_eq. simpl.
    assert (negb (String.eqb (name c) "") = true) as ->
      by (by apply negb_true_iff, String.eqb_neq).
    simpl. fold payload.
    destruct (post (http_client chat_service) (CHAT w) payload) as [v|e]; [done|].
    destruct (isinstance_Exception e && has_logger (http_client chat_service))%bool;
      [|done].
    simpl. by rewrite <- app_assoc.
  - subst payload. unfold dict_update. apply lookup_union_Some_l. apply lookup_insert_eq.
  - subst payload. rewrite payload_message_lookup.
    by rewrite lookup_insert_ne by done.
Qed.

Lemma built_agent_sends_prompt_witness :
  exists agent payload,
    build config_bare (Some service_plain) = Return agent /\
    process_message world0 json0 agent 0 "Hi" None initial_state
    = Some (Return (VDict {[ "response"%string := VStr "ok" ]}),
            mkState [] [HttpPost "/chat" payload]) /\
    payload !! "agent" = Some (VStr "helper") /\
    payload !! "message" = Some (VStr "User: Hi").
Proof.
  exists (mkCustomAgent config_bare (Some service_plain) true).
  eexists. split; [reflexivity|].
  assert ((default ∅ (None : option (gmap string value)) : gmap string value) !! "agent"
          = None) as Hagent by reflexivity.
  destruct (built_agent_sends_prompt world0 json0 config_bare service_plain
              (mkCustomAgent config_bare (Some service_plain) true) 0 "Hi" None
              initial_state eq_refl Hagent) as (Hrun & Ha & Hm).
  split; [exact Hrun|]. split; [exact Ha|]. rewrite Hm. vm_compute. reflexivity.
Defined.

(** X21. Presence and truth of the agent option are tested in two
    places: [process_message] fills in the configuration's name only when
    the key is missing, and [send_message] refuses an entry that is
    empty. So an initialised agent with a chat service, given options
    whose ['agent'] entry is empty, raises [ValidationError] and sends
    nothing, although its configuration has a name. *)
Theorem empty_agent_option_is_not_replaced w json_dumps_indent2 agent chat_service fuel
    message o v st :
  is_initialized agent = true ->
  sdk agent = Some chat_service ->
  o !! "agent" = Some v ->
  truthy v = false ->
  process_message w json_dumps_indent2 agent fuel message (Some o) st
  = Some (Raise (ValidationError "agent is required" "agent"), st).
Proof.
  intros Hinit Hsdk Ho Hv. unfold process_message. rewrite Hinit, Hsdk. simpl.
  unfold options_with_agent, dict_contains. simpl. rewrite Ho. simpl.
  unfold send_message, dict_get. simpl. rewrite Ho. simpl. by rewrite Hv.
Qed.

Lemma empty_agent_option_is_not_replaced_witness :
  process_message world0 json0 (mkCustomAgent config0 (Some service_plain) true) 0 "Hi"
    (Some {[ "agent"%string := VStr "" ]}) initial_state
  = Some (Raise (ValidationError "agent is required" "agent"), initial_state).
Proof.
  apply (empty_agent_option_is_not_replaced world0 json0
           (mkCustomAgent config0 (Some service_plain) true) service_plain 0 "Hi"
           {[ "agent"%string := VStr "" ]} (VStr "") initial_state); reflexivity.
Defined.
